(** * CidingNinjaApi: the Code360 profile scraper of [server.js]

    A shallow embedding of the text coercion utilities, the page extractor,
    the profile fetcher, the response formatter and the profile endpoint
    with its cache, followed by the properties stated about them.

    Conventions of the model.
    - A JavaScript string is a [string]: the sequence of its code units,
      each taken below 256 (the Latin-1 range), so a character is an
      [ascii].
    - A JavaScript number is a [number]: an integer-valued double,
      an infinity or NaN.  Negative zero is identified with zero (both are
      falsy and both print as 0).
    - [null] and [undefined] are [None].
    - The headless browser and the clock are collaborators: a [Session]
      says what each call on the browser does, a [Request] what
      [Date.now()] reads.  Code that awaits is modelled by the value it
      resolves to or the error it rejects with, and leaves its calls in a
      trace of events. *)

From Stdlib Require Import ZArith Ascii String List Bool Lia.
From stdpp Require Import gmap strings.

Local Open Scope Z_scope.

(** ** Characters and character classes *)

Module Char.

Definition code (c : ascii) : Z := Z.of_N (N_of_ascii c).

Definition between (lo hi : Z) (c : ascii) : bool :=
  (lo <=? code c) && (code c <=? hi).

(** [\d]: the ten ASCII digits. *)
Definition is_digit (c : ascii) : bool := between 48 57 c.

(** [\w]: ASCII letters, digits and the underscore. *)
Definition is_word (c : ascii) : bool :=
  between 97 122 c || between 65 90 c || is_digit c || (code c =? 95).

(** [\s], and the characters [String.prototype.trim] removes: TAB, LF,
    VT, FF, CR, SP and NBSP are the ones below 256. *)
Definition is_space (c : ascii) : bool :=
  between 9 13 c || (code c =? 32) || (code c =? 160).

Definition of_code (z : Z) : ascii := ascii_of_N (Z.to_N z).

(** [toLowerCase] on one Latin-1 character. *)
Definition lower (c : ascii) : ascii :=
  if between 65 90 c then of_code (code c + 32)
  else if between 192 222 c && negb (code c =? 215) then of_code (code c + 32)
  else c.

(** Canonicalisation of a character for an [/i] match (no [u] flag):
    upper-casing, except that a character outside ASCII is never mapped
    into ASCII. The patterns of the program hold ASCII characters only,
    for which this agrees with folding the ASCII letters. *)
Definition canon (c : ascii) : ascii :=
  if between 97 122 c then of_code (code c - 32) else c.

Definition eqb_ci (a b : ascii) : bool := Ascii.eqb (canon a) (canon b).

(** Value of a character as a digit in a radix up to 16. *)
Definition digit_value (c : ascii) : option Z :=
  if is_digit c then Some (code c - 48)
  else if between 97 102 c then Some (code c - 87)
  else if between 65 70 c then Some (code c - 55)
  else None.

Definition radix_digit (R : Z) (c : ascii) : option Z :=
  match digit_value c with
  | Some d => if d <? R then Some d else None
  | None => None
  end.

End Char.

(** ** Strings: the methods of [String.prototype] the program calls *)

Module Str.

Definition is_empty (s : string) : bool :=
  match s with EmptyString => true | String _ _ => false end.

Fixpoint filter (p : ascii -> bool) (s : string) : string :=
  match s with
  | EmptyString => EmptyString
  | String c r => if p c then String c (filter p r) else filter p r
  end.

(** [s.replace(/C/g, '')] for a character class [C]: every character
    of the class is removed. *)
Definition remove (p : ascii -> bool) (s : string) : string :=
  filter (fun c => negb (p c)) s.

Fixpoint forallb (p : ascii -> bool) (s : string) : bool :=
  match s with
  | EmptyString => true
  | String c r => p c && forallb p r
  end.

Fixpoint map (f : ascii -> ascii) (s : string) : string :=
  match s with
  | EmptyString => EmptyString
  | String c r => String (f c) (map f r)
  end.

Fixpoint drop_while (p : ascii -> bool) (s : string) : string :=
  match s with
  | EmptyString => EmptyString
  | String c r => if p c then drop_while p r else s
  end.

Fixpoint take_while (p : ascii -> bool) (s : string) : string :=
  match s with
  | EmptyString => EmptyString
  | String c r => if p c then String c (take_while p r) else EmptyString
  end.

Definition head_is (p : ascii -> bool) (s : string) : bool :=
  match s with EmptyString => false | String c _ => p c end.

Definition trimStart (s : string) : string := drop_while Char.is_space s.

Fixpoint trimEnd (s : string) : string :=
  match s with
  | EmptyString => EmptyString
  | String c r =>
      let r' := trimEnd r in
      if Char.is_space c && is_empty r' then EmptyString else String c r'
  end.

(** [s.trim()] *)
Definition trim (s : string) : string := trimEnd (trimStart s).

(** [s.toLowerCase()] *)
Definition toLowerCase (s : string) : string := map Char.lower s.

(** [strip_prefix eq p s]: the rest of [s] after the prefix [p], the
    characters compared with [eq]. *)
Fixpoint strip_prefix (eq : ascii -> ascii -> bool) (p s : string)
  : option string :=
  match p, s with
  | EmptyString, _ => Some s
  | String a p', String b s' => if eq a b then strip_prefix eq p' s' else None
  | String _ _, EmptyString => None
  end.

Definition startsWith (p s : string) : bool :=
  match strip_prefix Ascii.eqb p s with Some _ => true | None => false end.

(** [s.includes(t)] *)
Fixpoint includes (s t : string) : bool :=
  startsWith t s ||
  match s with
  | EmptyString => false
  | String _ r => includes r t
  end.

Fixpoint last_is (p : ascii -> bool) (s : string) : bool :=
  match s with
  | EmptyString => false
  | String c EmptyString => p c
  | String _ r => last_is p r
  end.

(** [s.substring(0, n)] *)
Fixpoint prefix (n : nat) (s : string) : string :=
  match n, s with
  | S m, String c r => String c (prefix m r)
  | _, _ => EmptyString
  end.

End Str.

(** ** Numbers *)

Inductive number : Type :=
| Num (z : Z)
| PosInf
| NegInf
| NaN.

Module Number.

(** [!n] *)
Definition falsy (n : number) : bool :=
  match n with
  | Num 0 | NaN => true
  | _ => false
  end.

(** [a || b] on numbers. *)
Definition or_else (a b : number) : number := if falsy a then b else a.

(** [n === 0] *)
Definition is_zero (n : number) : bool :=
  match n with Num 0 => true | _ => false end.

Definition nonneg (n : number) : Prop :=
  match n with
  | Num z => 0 <= z
  | PosInf => True
  | NegInf | NaN => False
  end.

(** The double nearest to the integer [m], ties to the even significand
    (53 bits); beyond the largest double the result is an infinity. *)
Definition of_integer (m : Z) : number :=
  let a := Z.abs m in
  if a <? 2 ^ 53 then Num m
  else
    let e := Z.log2 a - 52 in
    let q := a / 2 ^ e in
    let r := a mod 2 ^ e in
    let h := 2 ^ (e - 1) in
    let q' := if (h <? r) || ((r =? h) && Z.odd q) then q + 1 else q in
    let v := q' * 2 ^ e in
    if 2 ^ 1024 <=? v then (if m <? 0 then NegInf else PosInf)
    else Num (Z.sgn m * v).

End Number.

(** ** [parseInt(string)] with no radix argument

    Leading white space is skipped, then a sign is read, then a [0x] or
    [0X] prefix (which makes the radix 16, otherwise it is 10); the
    longest run of digits of the radix that follows is the integer, and
    the result is the double nearest to it, or NaN when the run is
    empty. *)

Module ParseInt.

Fixpoint digits (R : Z) (s : string) : list Z :=
  match s with
  | EmptyString => []
  | String c r =>
      match Char.radix_digit R c with
      | Some d => d :: digits R r
      | None => []
      end
  end.

Definition mathInt (R : Z) (ds : list Z) : Z :=
  fold_left (fun acc d => acc * R + d) ds 0.

Definition sign_and_rest (s : string) : Z * string :=
  match s with
  | String "-" r => (-1, r)
  | String "+" r => (1, r)
  | _ => (1, s)
  end.

Definition radix_and_rest (s : string) : Z * string :=
  match s with
  | String "0" (String x r) =>
      if Ascii.eqb x "x" || Ascii.eqb x "X" then (16, r) else (10, s)
  | _ => (10, s)
  end.

Definition parseInt (s : string) : number :=
  let '(sign, s1) := sign_and_rest (Str.trimStart s) in
  let '(R, s2) := radix_and_rest s1 in
  match digits R s2 with
  | [] => NaN
  | ds => Number.of_integer (sign * mathInt R ds)
  end.

End ParseInt.

(** ** Text coercion utilities (server.js, lines 29-42) *)

Definition parseNumber (text : option string) : number :=
  match text with
  | None => Num 0
  | Some s =>
      if Str.is_empty s then Num 0
      else
        let cleaned := Str.remove (fun c => negb (Char.is_digit c)) s in
        Number.or_else (ParseInt.parseInt cleaned) (Num 0)
  end.

Module DatePrefix.

(** The regular expression [/^(Joined on|Member since):?\s*/i], read
    left to right: the first alternative that matches, then a colon if
    there is one, then every white-space character that follows. Each
    part is greedy and none can give back characters the next part
    needs, so the match is found without backtracking. *)
Definition alternatives (s : string) : option string :=
  match Str.strip_prefix Char.eqb_ci "Joined on" s with
  | Some r => Some r
  | None => Str.strip_prefix Char.eqb_ci "Member since" s
  end.

Definition optional_colon (s : string) : string :=
  match s with
  | String ":" r => r
  | _ => s
  end.

(** [s.replace(/^(Joined on|Member since):?\s*/i, '')] *)
Definition remove (s : string) : string :=
  match alternatives s with
  | Some r => Str.drop_while Char.is_space (optional_colon r)
  | None => s
  end.

End DatePrefix.

Definition parseDate (text : option string) : option string :=
  match text with
  | None => None
  | Some s =>
      if Str.is_empty s then None
      else
        let cleanedText := Str.trim s in
        let cleanedText := Str.trim (DatePrefix.remove cleanedText) in
        Some cleanedText
  end.

(** ** Effects: console output and the calls made on the browser and on
    the cache *)

Inductive level : Type := LogLevel | WarnLevel | ErrorLevel.

Inductive script : Type := ProfileExistsScript | ExtractStatsScript.

Inductive event : Type :=
| Console (l : level) (msg : string)
| Launch
| NewPage
| SetUserAgent
| SetViewport
| SetExtraHTTPHeaders
| Goto (url : string) (timeout : Z)
| WaitForSelector (selector : string) (timeout : Z)
| Evaluate (what : script)
| CloseBrowser
| CacheGet (key : string)
| CacheSet (key : string)
| CacheClear.

(** A thrown [Error] object, with its [message]. *)
Inductive exn : Type := Error (message : string).

Definition message (e : exn) : string := let 'Error m := e in m.

Inductive outcome (A : Type) : Type :=
| Ok (a : A)
| Throw (e : exn).
Arguments Ok {A} a.
Arguments Throw {A} e.

(** Code of a browser session: it returns or throws, and leaves a trace
    of events. It has no access to the cache of the endpoint layer. *)
Module Scr.

Definition t (A : Type) : Type := outcome A * list event.

Definition ret {A} (a : A) : t A := (Ok a, []).

Definition throw {A} (e : exn) : t A := (Throw e, []).

Definition emit (ev : event) : t unit := (Ok tt, [ev]).

Definition bind {A B} (m : t A) (k : A -> t B) : t B :=
  match m with
  | (Ok a, tr) => let '(r, tr') := k a in (r, tr ++ tr')
  | (Throw e, tr) => (Throw e, tr)
  end.

(** [try { m } catch (e) { h e }] *)
Definition try_catch {A} (m : t A) (h : exn -> t A) : t A :=
  match m with
  | (Ok a, tr) => (Ok a, tr)
  | (Throw e, tr) => let '(r, tr') := h e in (r, tr ++ tr')
  end.

Definition result {A} (m : t A) : outcome A := fst m.
Definition trace {A} (m : t A) : list event := snd m.

End Scr.

Declare Scope scr_scope.
Delimit Scope scr_scope with scr.
Notation "x <- m ;; k" := (Scr.bind m (fun x => k))
  (at level 100, m at next level, right associativity) : scr_scope.
Notation "m ;; k" := (Scr.bind m (fun _ => k))
  (at level 100, right associativity) : scr_scope.

(** ** What one browser session shows (the collaborator's side) *)

(** A [.difficulty-wise .difficulty] element: the text of its [.value]
    and of its [.title] descendant, when there is one. *)
Record Difficulty : Type := {
  value_el : option string;
  title_el : option string;
}.

(** The [.current-and-longest-text-container] element: the text of the
    three [.day-count-text p] descendants the program looks up in it. *)
Record StreakContainer : Type := {
  current_el : option string;
  longest_el : option string;
  freeze_el : option string;
}.

(** The rendered document. An element is given by its [textContent];
    [None] is a selector with no match. *)
Record Document : Type := {
  body_text : string;
  title : string;
  href : string;
  total_el : option string;
  difficulty_els : list Difficulty;
  streak_container : option StreakContainer;
  member_since_el : option string;
  some_class_el : option string;
  join_date_el : option string;
  xp_points_el : option string;
  div_els : list string;
}.

(** A session: for each call that can reject, the message of the error
    it rejects with ([None]: it resolves), and the rendered document. *)
Record Session : Type := {
  launch_error : option string;
  goto_error : option string;
  wait_problems_error : option string;
  wait_streak_error : option string;
  wait_xp_error : option string;
  document : Document;
}.

(** ** The page extractor (server.js, lines 45-264) *)

(** The object built inside [page.evaluate] (lines 111-126). *)
Module Raw.
Record t : Type := {
  totalSolved : string;
  easySolved : string;
  moderateSolved : string;
  hardSolved : string;
  ninjaSolved : string;
  currentStreak : string;
  longestStreak : string;
  streakFreezeLeft : string;
  joinedDate : option string;
  expcount : string;
  badge : option string;
  pageTitle : string;
  url : string;
  pageContent : string;
}.
End Raw.

(** The object [scrapeCode360Puppeteer] returns (lines 242-257). *)
Module Stats.
Record t : Type := {
  totalSolved : number;
  easySolved : number;
  moderateSolved : number;
  hardSolved : number;
  ninjaSolved : number;
  currentStreak : number;
  longestStreak : number;
  streakFreezeLeft : number;
  joinedDate : option string;
  expcount : number;
  badge : option string;
  pageTitle : string;
  url : string;
  debug : string;
}.
End Stats.

Module Extract.

(** [text.match(/\d+/)]: the first maximal run of digits, [None] when
    the text has no digit. *)
Definition first_digits (text : string) : option string :=
  let from := Str.drop_while (fun c => negb (Char.is_digit c)) text in
  if Str.is_empty from then None
  else Some (Str.take_while Char.is_digit from).

Definition totalSolved (d : Document) : string :=
  match total_el d with
  | Some el =>
      match first_digits (Str.trim el) with
      | Some m => m
      | None => "0"
      end
  | None => "0"
  end.

(** The four counters the [forEach] of lines 143-161 assigns. *)
Record counts : Type := {
  easy : string;
  moderate : string;
  hard : string;
  ninja : string;
}.

Definition difficulty_step (r : counts) (el : Difficulty) : counts :=
  match value_el el, title_el el with
  | Some v, Some t =>
      let value := Str.trim v in
      let title := Str.toLowerCase (Str.trim t) in
      if String.eqb title "easy" then
        {| easy := value; moderate := moderate r; hard := hard r; ninja := ninja r |}
      else if String.eqb title "moderate" then
        {| easy := easy r; moderate := value; hard := hard r; ninja := ninja r |}
      else if String.eqb title "hard" then
        {| easy := easy r; moderate := moderate r; hard := value; ninja := ninja r |}
      else if String.eqb title "ninja" then
        {| easy := easy r; moderate := moderate r; hard := hard r; ninja := value |}
      else r
  | _, _ => r
  end.

Definition difficulties (d : Document) : counts :=
  fold_left difficulty_step (difficulty_els d)
    {| easy := "0"; moderate := "0"; hard := "0"; ninja := "0" |}.

(** A [.day-count-text p] element inside the streak container. *)
Definition streak (pick : StreakContainer -> option string) (d : Document)
  : string :=
  match streak_container d with
  | Some c =>
      match pick c with
      | Some el => Str.trim el
      | None => "0"
      end
  | None => "0"
  end.

(** [a || b || c] on the three joined-date selectors. *)
Definition joinedDateElement (d : Document) : option string :=
  match member_since_el d with
  | Some el => Some el
  | None =>
      match some_class_el d with
      | Some el => Some el
      | None => join_date_el d
      end
  end.

Definition joinedDate (d : Document) : option string :=
  match joinedDateElement d with
  | Some el => Some (Str.trim el)
  | None => None
  end.

Definition expcount (d : Document) : string :=
  match xp_points_el d with
  | Some el => Str.trim el
  | None => "0"
  end.

(** [text.match(/^\d+\s+\w+/)] as a truth value: at least one digit,
    then at least one white-space character, then a word character.
    The three classes met in turn are disjoint where they meet, so
    giving back characters never helps. *)
Definition leading_number_word (text : string) : bool :=
  let after_digits := Str.drop_while Char.is_digit text in
  let after_space := Str.drop_while Char.is_space after_digits in
  Str.head_is Char.is_digit text
  && Str.head_is Char.is_space after_digits
  && Str.head_is Char.is_word after_space.

(** The callback of [badgeElements.find] (lines 224-227). *)
Definition is_badge (div : string) : bool :=
  let text := Str.trim div in
  leading_number_word text
  && (Str.includes (Str.toLowerCase text) "achiever"
      || Str.includes (Str.toLowerCase text) "badge"
      || Str.includes (Str.toLowerCase text) "rank").

Definition badge (d : Document) : option string :=
  match List.find is_badge (div_els d) with
  | Some foundBadgeElement => Some (Str.trim foundBadgeElement)
  | None => None
  end.

(** The second [page.evaluate] (lines 110-238). *)
Definition stats (d : Document) : Raw.t :=
  let c := difficulties d in
  {| Raw.totalSolved := totalSolved d;
     Raw.easySolved := easy c;
     Raw.moderateSolved := moderate c;
     Raw.hardSolved := hard c;
     Raw.ninjaSolved := ninja c;
     Raw.currentStreak := streak current_el d;
     Raw.longestStreak := streak longest_el d;
     Raw.streakFreezeLeft := streak freeze_el d;
     Raw.joinedDate := joinedDate d;
     Raw.expcount := expcount d;
     Raw.badge := badge d;
     Raw.pageTitle := title d;
     Raw.url := href d;
     Raw.pageContent := Str.prefix 1000 (body_text d) |}.

(** The first [page.evaluate] (lines 98-103). *)
Definition profileExists (d : Document) : bool :=
  let pageText := body_text d in
  negb (Str.includes pageText "Profile not found")
  && negb (Str.includes pageText "404")
  && negb (Str.includes pageText "User not found").

End Extract.

Local Open Scope scr_scope.

Definition console (l : level) (msg : string) : Scr.t unit :=
  Scr.emit (Console l msg).

(** A call on the browser that resolves, or rejects with an error. *)
Definition browser_call (ev : event) (failure : option string) : Scr.t unit :=
  Scr.emit ev ;;
  match failure with
  | Some m => Scr.throw (Error m)
  | None => Scr.ret tt
  end.

Definition profileUrl (username : string) : string :=
  "https://www.naukri.com/code360/profile/" +:+ username.

(** Lines 80-95: the waits for the dynamic content. *)
Definition wait_for_content (s : Session) : Scr.t unit :=
  Scr.try_catch
    (browser_call (WaitForSelector ".problems-solved" 20000)
       (wait_problems_error s) ;;
     console LogLevel "Successfully waited for the main problems-solved container." ;;
     browser_call (WaitForSelector ".current-and-longest-text-container" 10000)
       (wait_streak_error s) ;;
     console LogLevel "Successfully waited for streak container." ;;
     Scr.try_catch
       (browser_call (WaitForSelector ".xp-points" 5000) (wait_xp_error s))
       (fun _ => console WarnLevel "XP points selector timed out."))
    (fun e =>
       console WarnLevel "Timeout waiting for core containers. Profile data might not be fully loaded or profile not found." ;;
       if Str.includes (message e) "timeout"
       then Scr.throw (Error ("Page element not found or timed out: " +:+ message e))
       else Scr.ret tt).

Definition normalize (stats : Raw.t) : Stats.t :=
  {| Stats.totalSolved := parseNumber (Some (Raw.totalSolved stats));
     Stats.easySolved := parseNumber (Some (Raw.easySolved stats));
     Stats.moderateSolved := parseNumber (Some (Raw.moderateSolved stats));
     Stats.hardSolved := parseNumber (Some (Raw.hardSolved stats));
     Stats.ninjaSolved := parseNumber (Some (Raw.ninjaSolved stats));
     Stats.currentStreak := parseNumber (Some (Raw.currentStreak stats));
     Stats.longestStreak := parseNumber (Some (Raw.longestStreak stats));
     Stats.streakFreezeLeft := parseNumber (Some (Raw.streakFreezeLeft stats));
     Stats.joinedDate := parseDate (Raw.joinedDate stats);
     Stats.expcount := parseNumber (Some (Raw.expcount stats));
     Stats.badge := Raw.badge stats;
     Stats.pageTitle := Raw.pageTitle stats;
     Stats.url := Raw.url stats;
     Stats.debug := Raw.pageContent stats |}.

(** Lines 55-257: the body of the outer [try], once the browser is
    launched. The calls that set the page up, the two scripts and
    [browser.close()] are taken to resolve here; [Faulty.scrape_session]
    below lets each of them reject. *)
Definition scrape_session (s : Session) (username : string) : Scr.t Stats.t :=
  Scr.emit NewPage ;;
  Scr.emit SetUserAgent ;;
  Scr.emit SetViewport ;;
  Scr.emit SetExtraHTTPHeaders ;;
  console LogLevel ("Attempting to scrape Code360 profile: " +:+ profileUrl username) ;;
  browser_call (Goto (profileUrl username) 45000) (goto_error s) ;;
  wait_for_content s ;;
  Scr.emit (Evaluate ProfileExistsScript) ;;
  if negb (Extract.profileExists (document s))
  then Scr.throw (Error "Code360 profile not found")
  else
    Scr.emit (Evaluate ExtractStatsScript) ;;
    let stats := Extract.stats (document s) in
    Scr.emit CloseBrowser ;;
    Scr.ret (normalize stats).

(** [scrapeCode360Puppeteer]: when [puppeteer.launch] rejects, [browser]
    is still undefined in the [catch] and nothing is closed. The close of
    the [catch] is taken to resolve here (see
    [Faulty.scrapeCode360Puppeteer]). *)
Definition scrapeCode360Puppeteer (s : Session) (username : string)
  : Scr.t Stats.t :=
  let rethrow (close : bool) (error : exn) : Scr.t Stats.t :=
    (if close then Scr.emit CloseBrowser else Scr.ret tt) ;;
    console ErrorLevel ("Puppeteer scraping error for Code360: " +:+ message error) ;;
    Scr.throw error in
  Scr.emit Launch ;;
  match launch_error s with
  | Some m => rethrow false (Error m)
  | None => Scr.try_catch (scrape_session s username) (rethrow true)
  end.

(** ** The profile fetcher (server.js, lines 267-284) *)

Definition string_falsy (o : option string) : bool :=
  match o with
  | None => true
  | Some s => Str.is_empty s
  end.

Definition no_statistics (stats : Stats.t) : bool :=
  Number.is_zero (Stats.totalSolved stats)
  && Number.is_zero (Stats.easySolved stats)
  && Number.is_zero (Stats.moderateSolved stats)
  && Number.is_zero (Stats.hardSolved stats)
  && Number.is_zero (Stats.ninjaSolved stats)
  && Number.is_zero (Stats.currentStreak stats)
  && Number.is_zero (Stats.longestStreak stats)
  && Number.is_zero (Stats.streakFreezeLeft stats)
  && string_falsy (Stats.joinedDate stats)
  && Number.is_zero (Stats.expcount stats)
  && string_falsy (Stats.badge stats).

Definition no_statistics_warning (username : string) : string :=
  "No statistics found for Code360 user '" +:+ username +:+
  "'. Profile might be private or selectors need further updating. Check 'debug' field for partial page content.".

Definition scrapeCode360 (s : Session) (username : string) : Scr.t Stats.t :=
  Scr.try_catch
    (stats <- scrapeCode360Puppeteer s username ;;
     (if no_statistics stats
      then console WarnLevel (no_statistics_warning username)
      else Scr.ret tt) ;;
     Scr.ret stats)
    (fun error =>
       console ErrorLevel
         ("Code360 scraping failed for " +:+ username +:+ ": " +:+ message error) ;;
       Scr.throw error).

(** ** The response formatter (server.js, lines 287-301 and 327-351) *)

#[warnings="-register-all"]
Inductive json : Type :=
| JNull
| JNumber (n : number)
| JString (s : string)
| JObject (fields : list (string * json)).

Module Json.

Definition of_option_string (o : option string) : json :=
  match o with
  | Some s => JString s
  | None => JNull
  end.

(** [obj[key]] on an object literal; [None] when the key is not there. *)
Fixpoint get (key : string) (fields : list (string * json)) : option json :=
  match fields with
  | [] => None
  | (k, v) :: rest => if String.eqb k key then Some v else get key rest
  end.

Definition field (key : string) (j : json) : option json :=
  match j with
  | JObject fields => get key fields
  | _ => None
  end.

Definition keys (j : json) : list string :=
  match j with
  | JObject fields => List.map fst fields
  | _ => []
  end.

End Json.

(** The object [formatCode360Data] returns. *)
Module Core.
Record t : Type := {
  totalSolved : number;
  easySolved : number;
  mediumSolved : number;
  hardSolved : number;
  ninjaSolved : number;
  currentStreak : number;
  longestStreak : number;
  streakFreezeLeft : number;
  joinedDate : option string;
  expcount : number;
  badge : option string;
}.
End Core.

(** [s || null] on a string or null. *)
Definition or_null (o : option string) : option string :=
  if string_falsy o then None else o.

Definition formatCode360Data (stats : Stats.t) : Core.t :=
  {| Core.totalSolved := Number.or_else (Stats.totalSolved stats) (Num 0);
     Core.easySolved := Number.or_else (Stats.easySolved stats) (Num 0);
     Core.mediumSolved := Number.or_else (Stats.moderateSolved stats) (Num 0);
     Core.hardSolved := Number.or_else (Stats.hardSolved stats) (Num 0);
     Core.ninjaSolved := Number.or_else (Stats.ninjaSolved stats) (Num 0);
     Core.currentStreak := Number.or_else (Stats.currentStreak stats) (Num 0);
     Core.longestStreak := Number.or_else (Stats.longestStreak stats) (Num 0);
     Core.streakFreezeLeft := Number.or_else (Stats.streakFreezeLeft stats) (Num 0);
     Core.joinedDate := or_null (Stats.joinedDate stats);
     Core.expcount := Number.or_else (Stats.expcount stats) (Num 0);
     Core.badge := or_null (Stats.badge stats) |}.

(** The object literal of lines 327-351, its keys in the order written. *)
Definition finalResponse (username : string) (formattedCoreStats : Core.t) : json :=
  JObject
    [ ("status", JString "success");
      ("message", JString "retrieved");
      ("username", JString username);
      ("joinedDate", Json.of_option_string (Core.joinedDate formattedCoreStats));
      ("totalSolved", JNumber (Core.totalSolved formattedCoreStats));
      ("totalQuestions", JNumber (Num 0));
      ("easySolved", JNumber (Core.easySolved formattedCoreStats));
      ("totalEasy", JNumber (Num 0));
      ("mediumSolved", JNumber (Core.mediumSolved formattedCoreStats));
      ("totalMedium", JNumber (Num 0));
      ("hardSolved", JNumber (Core.hardSolved formattedCoreStats));
      ("totalHard", JNumber (Num 0));
      ("ninjaSolved", JNumber (Core.ninjaSolved formattedCoreStats));
      ("acceptanceRate", JNumber (Num 0));
      ("ranking", JNumber (Num 0));
      ("contributionPoints", JNumber (Num 0));
      ("reputation", JNumber (Num 0));
      ("submissionCalendar", JObject []);
      ("currentStreak", JNumber (Core.currentStreak formattedCoreStats));
      ("longestStreak", JNumber (Core.longestStreak formattedCoreStats));
      ("streakFreezeLeft", JNumber (Core.streakFreezeLeft formattedCoreStats));
      ("expcount", JNumber (Core.expcount formattedCoreStats));
      ("badge", Json.of_option_string (Core.badge formattedCoreStats)) ]%string.

(** The response formatter as one mapping: [formatCode360Data] followed
    by the object literal. *)
Definition format_response (username : string) (stats : Stats.t) : json :=
  finalResponse username (formatCode360Data stats).

(** ** The endpoint layer (server.js, lines 24-26, 308-377, 424-427) *)

Record CacheEntry : Type := {
  data : json;
  timestamp : Z;
}.

Definition CACHE_DURATION : Z := 10 * 60 * 1000.

(** The state of the process: the [cache] map, and the journal of the
    calls made so far on the console, the browser and the cache. *)
Record World : Type := {
  cache : gmap string CacheEntry;
  journal : list event;
}.

Record response : Type := {
  status : Z;
  body : json;
}.

(** [res.json(b)] and [res.status(n).json(b)]. The [body] of a response
    is the value handed to [res.json]; what is sent is its JSON text, in
    which a number that is not finite reads [null]. *)
Definition res_json (b : json) : response := {| status := 200; body := b |}.
Definition res_status_json (n : Z) (b : json) : response :=
  {| status := n; body := b |}.

(** Code of the endpoint layer: it reads and writes the process state. *)
Module Eff.

Definition t (A : Type) : Type := World -> outcome A * World.

Definition ret {A} (a : A) : t A := fun w => (Ok a, w).

Definition bind {A B} (m : t A) (k : A -> t B) : t B :=
  fun w =>
    match m w with
    | (Ok a, w') => k a w'
    | (Throw e, w') => (Throw e, w')
    end.

Definition try_catch {A} (m : t A) (h : exn -> t A) : t A :=
  fun w =>
    match m w with
    | (Ok a, w') => (Ok a, w')
    | (Throw e, w') => h e w'
    end.

(** Running code of a browser session: its events go to the console
    and the browser; the cache is out of its reach. *)
Definition lift {A} (m : Scr.t A) : t A :=
  fun w =>
    (Scr.result m, {| cache := cache w; journal := journal w ++ Scr.trace m |}).

Definition log (l : level) (msg : string) : t unit :=
  lift (console l msg).

(** [cache.get(key)] *)
Definition cache_get (key : string) : t (option CacheEntry) :=
  fun w =>
    (Ok (cache w !! key),
     {| cache := cache w; journal := journal w ++ [CacheGet key] |}).

(** [cache.set(key, entry)] *)
Definition cache_set (key : string) (entry : CacheEntry) : t unit :=
  fun w =>
    (Ok tt,
     {| cache := <[key := entry]> (cache w);
        journal := journal w ++ [CacheSet key] |}).

(** [cache.clear()] *)
Definition cache_clear : t unit :=
  fun w => (Ok tt, {| cache := ∅; journal := journal w ++ [CacheClear] |}).

End Eff.

Declare Scope eff_scope.
Delimit Scope eff_scope with eff.
Notation "x <- m ;; k" := (Eff.bind m (fun x => k))
  (at level 100, m at next level, right associativity) : eff_scope.
Notation "m ;; k" := (Eff.bind m (fun _ => k))
  (at level 100, right associativity) : eff_scope.

(** The environment of one request to the profile endpoint: the two
    readings of [Date.now()] (line 317 and line 355) and the browser
    session a fetch for a profile URL runs into. *)
Record Request : Type := {
  now_lookup : Z;
  now_store : Z;
  session_at : string -> Session;
}.

Definition cacheKey (username : string) : string := "code360_" +:+ username.

(** [cached && Date.now() - cached.timestamp < CACHE_DURATION] *)
Definition fresh (now : Z) (cached : option CacheEntry) : option CacheEntry :=
  match cached with
  | Some entry => if now - timestamp entry <? CACHE_DURATION then Some entry else None
  | None => None
  end.

Definition error_response (error : exn) : response :=
  if Str.includes (message error) "timeout" then
    res_status_json 408
      (JObject [("error", JString "Request timeout - Code360 profile took too long to load or element not found.")]%string)
  else if Str.includes (message error) "not found" then
    res_status_json 404 (JObject [("error", JString "Code360 profile not found")]%string)
  else
    res_status_json 500
      (JObject [("status", JString "error");
                ("message", JString "Failed to scrape Code360 profile");
                ("details", JString (message error))]%string).

(** [app.get('/api/code360/:username', ...)]; [username] is
    [req.params.username]. *)
Definition get_code360 (rq : Request) (username : option string) : Eff.t response :=
  (Eff.try_catch
     (match username with
      | None => Eff.ret (res_status_json 400 (JObject [("error", JString "Username is required")]%string))
      | Some username =>
          if Str.is_empty username
          then Eff.ret (res_status_json 400 (JObject [("error", JString "Username is required")]%string))
          else
            cached <- Eff.cache_get (cacheKey username) ;;
            match fresh (now_lookup rq) cached with
            | Some cached =>
                Eff.log LogLevel ("Returning cached data for Code360 user: " +:+ username) ;;
                Eff.ret (res_json (data cached))
            | None =>
                Eff.log LogLevel ("Scraping fresh Code360 data for: " +:+ username) ;;
                rawStats <- Eff.lift (scrapeCode360 (session_at rq (profileUrl username)) username) ;;
                let formattedCoreStats := formatCode360Data rawStats in
                let finalResponse := finalResponse username formattedCoreStats in
                Eff.cache_set (cacheKey username)
                  {| data := finalResponse; timestamp := now_store rq |} ;;
                Eff.ret (res_json finalResponse)
            end
      end)
     (fun error =>
        Eff.log ErrorLevel ("Code360 API error: " +:+ message error) ;;
        Eff.ret (error_response error)))%eff.

(** [app.post('/api/cache/clear', ...)] *)
Definition post_cache_clear : Eff.t response :=
  (Eff.cache_clear ;;
   Eff.ret (res_json (JObject [("message", JString "Cache cleared successfully")]%string)))%eff.

(** The number of fetches started: every fetch begins with
    [puppeteer.launch]. *)
Definition fetches (tr : list event) : nat :=
  length (List.filter (fun ev => match ev with Launch => true | _ => false end) tr).

(** ** The test endpoint (server.js, lines 380-421) *)

(** The object literal of lines 386-411. *)
Definition testResponse (username : string) (formattedCoreStats : Core.t) : json :=
  JObject
    [ ("status", JString "success");
      ("message", JString "retrieved (test)");
      ("username", JString username);
      ("joinedDate", Json.of_option_string (Core.joinedDate formattedCoreStats));
      ("totalSolved", JNumber (Core.totalSolved formattedCoreStats));
      ("totalQuestions", JNumber (Num 0));
      ("easySolved", JNumber (Core.easySolved formattedCoreStats));
      ("totalEasy", JNumber (Num 0));
      ("mediumSolved", JNumber (Core.mediumSolved formattedCoreStats));
      ("totalMedium", JNumber (Num 0));
      ("hardSolved", JNumber (Core.hardSolved formattedCoreStats));
      ("totalHard", JNumber (Num 0));
      ("ninjaSolved", JNumber (Core.ninjaSolved formattedCoreStats));
      ("acceptanceRate", JNumber (Num 0));
      ("stabilityScore", JNumber (Num 0));
      ("ranking", JNumber (Num 0));
      ("contributionPoints", JNumber (Num 0));
      ("reputation", JNumber (Num 0));
      ("submissionCalendar", JObject []);
      ("currentStreak", JNumber (Core.currentStreak formattedCoreStats));
      ("longestStreak", JNumber (Core.longestStreak formattedCoreStats));
      ("streakFreezeLeft", JNumber (Core.streakFreezeLeft formattedCoreStats));
      ("expcount", JNumber (Core.expcount formattedCoreStats));
      ("badge", Json.of_option_string (Core.badge formattedCoreStats)) ]%string.

(** [app.get('/api/test/codushan', ...)] *)
Definition get_test_codushan (rq : Request) : Eff.t response :=
  (Eff.try_catch
     (let username := "Codushan"%string in
      rawStats <- Eff.lift (scrapeCode360 (session_at rq (profileUrl username)) username) ;;
      let formattedCoreStats := formatCode360Data rawStats in
      let finalResponse := testResponse username formattedCoreStats in
      Eff.ret (res_json finalResponse))
     (fun error =>
        Eff.ret
          (res_status_json 500
             (JObject [("status", JString "error");
                       ("message", JString "Failed test scrape");
                       ("details", JString (message error))]%string))))%eff.

(** ** The browser session when any call on the browser may reject

    [scrape_session] and [scrapeCode360Puppeteer] above take the calls
    on the page, the two scripts and [browser.close()] to resolve. Here
    is the same code with each of these calls allowed to reject; the first
    is the second with a browser that rejects none of them
    ([Faulty.healthy]). *)

Module Faulty.

(** For each further call that can reject, the message of the error it
    rejects with ([None]: it resolves). [close_error] is the close of
    the success path (line 240), [cleanup_close_error] the one of the
    [catch] (line 260). *)
Record Faults : Type := {
  new_page_error : option string;
  user_agent_error : option string;
  viewport_error : option string;
  headers_error : option string;
  exists_script_error : option string;
  stats_script_error : option string;
  close_error : option string;
  cleanup_close_error : option string;
}.

Definition healthy : Faults :=
  {| new_page_error := None; user_agent_error := None; viewport_error := None;
     headers_error := None; exists_script_error := None;
     stats_script_error := None; close_error := None;
     cleanup_close_error := None |}.

(** Lines 55-257. *)
Definition scrape_session (f : Faults) (s : Session) (username : string)
  : Scr.t Stats.t :=
  browser_call NewPage (new_page_error f) ;;
  browser_call SetUserAgent (user_agent_error f) ;;
  browser_call SetViewport (viewport_error f) ;;
  browser_call SetExtraHTTPHeaders (headers_error f) ;;
  console LogLevel ("Attempting to scrape Code360 profile: " +:+ profileUrl username) ;;
  browser_call (Goto (profileUrl username) 45000) (goto_error s) ;;
  wait_for_content s ;;
  browser_call (Evaluate ProfileExistsScript) (exists_script_error f) ;;
  if negb (Extract.profileExists (document s))
  then Scr.throw (Error "Code360 profile not found")
  else
    browser_call (Evaluate ExtractStatsScript) (stats_script_error f) ;;
    let stats := Extract.stats (document s) in
    browser_call CloseBrowser (close_error f) ;;
    Scr.ret (normalize stats).

(** Lines 45-264. In the [catch], a close that rejects is thrown in
    place of the error caught, and the [console.error] is not reached. *)
Definition scrapeCode360Puppeteer (f : Faults) (s : Session) (username : string)
  : Scr.t Stats.t :=
  let rethrow (close : bool) (error : exn) : Scr.t Stats.t :=
    (if close then browser_call CloseBrowser (cleanup_close_error f)
     else Scr.ret tt) ;;
    console ErrorLevel ("Puppeteer scraping error for Code360: " +:+ message error) ;;
    Scr.throw error in
  Scr.emit Launch ;;
  match launch_error s with
  | Some m => rethrow false (Error m)
  | None => Scr.try_catch (scrape_session f s username) (rethrow true)
  end.

(** Lines 267-284. *)
Definition scrapeCode360 (f : Faults) (s : Session) (username : string)
  : Scr.t Stats.t :=
  Scr.try_catch
    (stats <- scrapeCode360Puppeteer f s username ;;
     (if no_statistics stats
      then console WarnLevel (no_statistics_warning username)
      else Scr.ret tt) ;;
     Scr.ret stats)
    (fun error =>
       console ErrorLevel
         ("Code360 scraping failed for " +:+ username +:+ ": " +:+ message error) ;;
       Scr.throw error).

(** The four calls that set the page up resolve. *)
Definition page_ready (f : Faults) : Prop :=
  new_page_error f = None /\ user_agent_error f = None /\
  viewport_error f = None /\ headers_error f = None.

(** The error that leaves the [catch] of line 259 when [e] was caught
    there. *)
Definition after_cleanup (f : Faults) (e : exn) : exn :=
  match cleanup_close_error f with
  | None => e
  | Some m => Error m
  end.

End Faulty.

(** * Reading of the statements

    The definitions below say, independently of the program, what the
    statements about it speak of. *)

Module Coerce.

(** The base-10 integer formed by the digit characters of a text, in
    order, every other character skipped. *)
Fixpoint digits_value_from (acc : Z) (s : string) : Z :=
  match s with
  | EmptyString => acc
  | String c r =>
      if Char.is_digit c then digits_value_from (acc * 10 + (Char.code c - 48)) r
      else digits_value_from acc r
  end.

Definition digits_value (s : string) : Z := digits_value_from 0 s.

(** No digit character at all: null, the empty text, a text of
    non-digits. *)
Definition digit_free (text : option string) : bool :=
  match text with
  | None => true
  | Some s => Str.forallb (fun c => negb (Char.is_digit c)) s
  end.

End Coerce.

Module DateSpec.

Definition blank (w : string) : Prop := Str.forallb Char.is_space w = true.

(** [t] is [s] without its surrounding white space. *)
Definition trimmed (s t : string) : Prop :=
  exists w1 w2,
    s = w1 +:+ t +:+ w2 /\ blank w1 /\ blank w2 /\
    Str.head_is Char.is_space t = false /\
    Str.last_is Char.is_space t = false.

(** Equality of two texts up to the case of their letters. *)
Fixpoint eq_ci (a b : string) : bool :=
  match a, b with
  | EmptyString, EmptyString => true
  | String x a', String y b' => Char.eqb_ci x y && eq_ci a' b'
  | _, _ => false
  end.

Definition prefix_word (p : string) : Prop :=
  eq_ci "Joined on" p = true \/ eq_ci "Member since" p = true.

(** [r] is [t] without one leading prefix word, the colon after it if
    there is one, and the white space that follows; it is [t] when [t]
    starts with no prefix word. *)
Inductive stripped (t : string) : string -> Prop :=
| with_prefix (p c w r : string) :
    t = p +:+ c +:+ w +:+ r ->
    prefix_word p ->
    c = ":"%string \/
      (c = EmptyString /\ Str.head_is (Ascii.eqb ":") (w +:+ r) = false) ->
    blank w ->
    Str.head_is Char.is_space r = false ->
    stripped t r
| without_prefix :
    (forall p r, prefix_word p -> t <> p +:+ r) ->
    stripped t t.

End DateSpec.

Module FormatSpec.

(** The keys of a [PublicProfileResponse], in the order of the schema. *)
Definition fixed_fields : list string :=
  [ "status"; "message"; "username"; "joinedDate"; "totalSolved";
    "totalQuestions"; "easySolved"; "totalEasy"; "mediumSolved";
    "totalMedium"; "hardSolved"; "totalHard"; "ninjaSolved";
    "acceptanceRate"; "ranking"; "contributionPoints"; "reputation";
    "submissionCalendar"; "currentStreak"; "longestStreak";
    "streakFreezeLeft"; "expcount"; "badge" ]%string.

(** The default-if-falsy rule for a numeric field: 0 for a falsy
    source, the source itself otherwise. *)
Definition zero_if_falsy (source : number) (out : option json) : Prop :=
  (Number.falsy source = true -> out = Some (JNumber (Num 0))) /\
  (Number.falsy source = false -> out = Some (JNumber source)).

(** The rule for a text field: null for a falsy source (null or the
    empty text), the source itself otherwise. *)
Definition null_if_falsy (source : option string) (out : option json) : Prop :=
  (string_falsy source = true -> out = Some JNull) /\
  (forall s, source = Some s -> s <> EmptyString -> out = Some (JString s)).

(** The record with every numeric field 0 and no date and no badge. *)
Definition all_default (pageTitle url debug : string) : Stats.t :=
  {| Stats.totalSolved := Num 0; Stats.easySolved := Num 0;
     Stats.moderateSolved := Num 0; Stats.hardSolved := Num 0;
     Stats.ninjaSolved := Num 0; Stats.currentStreak := Num 0;
     Stats.longestStreak := Num 0; Stats.streakFreezeLeft := Num 0;
     Stats.joinedDate := None; Stats.expcount := Num 0;
     Stats.badge := None; Stats.pageTitle := pageTitle;
     Stats.url := url; Stats.debug := debug |}.

End FormatSpec.

Module BadgeSpec.

Definition nonempty_of (p : ascii -> bool) (s : string) : Prop :=
  s <> EmptyString /\ Str.forallb p s = true.

(** A match of [^\d+\s+\w+]: the text starts with digits, then white
    space, then word characters, one at least of each. *)
Definition leading_number_word (text : string) : Prop :=
  exists ds ws w rest,
    text = ds +:+ ws +:+ w +:+ rest /\
    nonempty_of Char.is_digit ds /\
    nonempty_of Char.is_space ws /\
    nonempty_of Char.is_word w.

(** The text holds the keyword, in some spelling of upper and lower
    case. *)
Definition contains_ci (text keyword : string) : Prop :=
  exists a k b, text = a +:+ k +:+ b /\ Str.toLowerCase k = keyword.

Definition qualifies (text : string) : Prop :=
  leading_number_word text /\
  (contains_ci text "achiever" \/ contains_ci text "badge"
   \/ contains_ci text "rank").

(** The element a badge is read from: the first in document order
    whose trimmed text qualifies. *)
Definition first_qualifying (divs : list string) (el : string) : Prop :=
  exists before after,
    divs = before ++ el :: after /\
    Forall (fun x => ~ qualifies (Str.trim x)) before /\
    qualifies (Str.trim el).

End BadgeSpec.

Module PageSpec.

(** [m] occurs in [text], letter for letter. *)
Definition occurs (m text : string) : Prop :=
  exists a b, text = a +:+ m +:+ b.


(** What the waits of lines 80-95 amount to: a mandatory wait that
    rejects escalates when the message of its error holds "timeout", and
    is passed over otherwise; the wait for the experience points plays no
    part. *)
Definition escalation (failure : option string) : option exn :=
  match failure with
  | Some m =>
      if Str.includes m "timeout"
      then Some (Error ("Page element not found or timed out: " +:+ m))
      else None
  | None => None
  end.





End PageSpec.

Module ErrorSpec.

(** The error of a page that shows a not-found marker. *)
Definition ProfileNotFound : exn := Error "Code360 profile not found".

End ErrorSpec.

Module FetchSpec.

(** Every numeric field is zero, and there is no date and no badge. *)
Definition all_default (stats : Stats.t) : Prop :=
  Stats.totalSolved stats = Num 0 /\ Stats.easySolved stats = Num 0 /\
  Stats.moderateSolved stats = Num 0 /\ Stats.hardSolved stats = Num 0 /\
  Stats.ninjaSolved stats = Num 0 /\ Stats.currentStreak stats = Num 0 /\
  Stats.longestStreak stats = Num 0 /\ Stats.streakFreezeLeft stats = Num 0 /\
  Stats.expcount stats = Num 0 /\
  Stats.joinedDate stats = None /\ Stats.badge stats = None.

End FetchSpec.

Module EndpointSpec.

(** One run of the profile endpoint from the state [w]. *)
Definition get (rq : Request) (username : option string) (w : World)
  : outcome response * World :=
  get_code360 rq username w.

Definition responds (run : outcome response * World) (r : response) : Prop :=
  fst run = Ok r.

Definition after (run : outcome response * World) : World := snd run.

(** The run started a fetch: the journal has one more launch. *)
Definition fetched (w : World) (run : outcome response * World) : Prop :=
  fetches (journal (after run)) = S (fetches (journal w)).

Definition not_fetched (w : World) (run : outcome response * World) : Prop :=
  fetches (journal (after run)) = fetches (journal w).

(** The fetch of the request for [username] returns. *)
Definition fetch_succeeds (rq : Request) (username : string) : Prop :=
  exists stats,
    Scr.result (scrapeCode360 (session_at rq (profileUrl username)) username)
    = Ok stats.

(** The fetch of the request for [username] throws [e]. *)
Definition fetch_throws (rq : Request) (username : string) (e : exn) : Prop :=
  Scr.result (scrapeCode360 (session_at rq (profileUrl username)) username)
  = Throw e.

(** No entry of the cache is fresh for [username] at time [now]. *)
Definition miss (now : Z) (username : string) (w : World) : Prop :=
  fresh now (cache w !! cacheKey username) = None.

Definition TTL_seconds : Z := 600.

(** The answer to a request that names no user. *)
Definition bad_request : response :=
  {| status := 400;
     body := JObject [("error", JString "Username is required")]%string |}.

(** The answer of [POST /cache/clear]. *)
Definition cleared : response :=
  {| status := 200;
     body := JObject [("message", JString "Cache cleared successfully")]%string |}.

End EndpointSpec.

(** ** Sample pages *)

Module Sample.

(** The profile of the scenario: 120 problems, a streak of 5, joined in
    January 2022, 3400 experience points, a five-star badge. *)
Definition codushan : Document :=
  {| body_text := "Codushan 120 Problems solved 5 Star Achiever";
     title := "Codushan | Code360";
     href := "https://www.naukri.com/code360/profile/Codushan";
     total_el := Some " 120 "%string;
     difficulty_els :=
       [ {| value_el := Some "50"%string; title_el := Some "Easy"%string |};
         {| value_el := Some "40"%string; title_el := Some "Moderate"%string |};
         {| value_el := Some "30"%string; title_el := Some "Hard"%string |};
         {| value_el := Some "0"%string; title_el := Some "Ninja"%string |} ];
     streak_container :=
       Some {| current_el := Some "5"%string;
               longest_el := Some "12"%string;
               freeze_el := Some "2"%string |};
     member_since_el := Some "Joined on: Jan 2022"%string;
     some_class_el := None;
     join_date_el := None;
     xp_points_el := Some "3400 XP"%string;
     div_els :=
       [ "Codushan"; "Problems solved 120"; " 5 Star Achiever ";
         "12 Rank holder" ]%string |}.

(** A page with none of the elements the extractor looks for. *)
Definition blank_page (text : string) : Document :=
  {| body_text := text; title := ""; href := "";
     total_el := None; difficulty_els := []; streak_container := None;
     member_since_el := None; some_class_el := None; join_date_el := None;
     xp_points_el := None; div_els := [] |}.

(** A session in which every call resolves. *)
Definition session (d : Document) : Session :=
  {| launch_error := None; goto_error := None;
     wait_problems_error := None; wait_streak_error := None;
     wait_xp_error := None; document := d |}.

(** A session whose wait for the statistics container rejects. *)
Definition session_without_statistics (m : string) (d : Document) : Session :=
  {| launch_error := None; goto_error := None;
     wait_problems_error := Some m; wait_streak_error := None;
     wait_xp_error := None; document := d |}.

(** A session whose wait for the streak container rejects. *)
Definition session_without_streak (m : string) (d : Document) : Session :=
  {| launch_error := None; goto_error := None;
     wait_problems_error := None; wait_streak_error := Some m;
     wait_xp_error := None; document := d |}.

Definition request (now : Z) (s : Session) : Request :=
  {| now_lookup := now; now_store := now + 3000; session_at := fun _ => s |}.

Definition empty_world : World := {| cache := ∅; journal := [] |}.

End Sample.

(** ** Observations on traces and pages *)

Module Observe.

(** How often the browser was closed. *)
Definition closes (tr : list event) : nat :=
  length (List.filter (fun ev => match ev with CloseBrowser => true | _ => false end) tr).

(** A wait for a selector or a script evaluation took place. *)
Definition page_work (tr : list event) : bool :=
  existsb (fun ev => match ev with
                     | WaitForSelector _ _ | Evaluate _ => true
                     | _ => false
                     end) tr.

(** A page was opened. *)
Definition page_opened (tr : list event) : bool :=
  existsb (fun ev => match ev with NewPage => true | _ => false end) tr.

(** The session [s] with its three waits resolving. *)
Definition waits_resolved (s : Session) : Session :=
  {| launch_error := launch_error s;
     goto_error := goto_error s;
     wait_problems_error := None;
     wait_streak_error := None;
     wait_xp_error := None;
     document := document s |}.

(** No mandatory wait of [s] rejects with an error whose message holds
    "timeout". *)
Definition no_escalation (s : Session) : Prop :=
  match wait_problems_error s with
  | Some m => Str.includes m "timeout" = false
  | None =>
      match wait_streak_error s with
      | Some m => Str.includes m "timeout" = false
      | None => True
      end
  end.

(** The waits for the streak container and the experience points were
    started. *)
Definition later_waits (tr : list event) : bool :=
  existsb (fun ev => match ev with
                     | WaitForSelector sel _ =>
                         String.eqb sel ".current-and-longest-text-container"
                         || String.eqb sel ".xp-points"
                     | _ => false
                     end) tr.

(** What a [.difficulty-wise .difficulty] element says about the
    difficulty [name]: its trimmed value, when it has a value and its
    title is [name] up to case and surrounding white space. *)
Definition titled (name : string) (el : Difficulty) : option string :=
  match value_el el, title_el el with
  | Some v, Some t =>
      if String.eqb (Str.toLowerCase (Str.trim t)) name
      then Some (Str.trim v) else None
  | _, _ => None
  end.

(** The last element of the list that speaks of [name]. *)
Fixpoint last_titled (name : string) (els : list Difficulty) : option string :=
  match els with
  | [] => None
  | el :: rest =>
      match last_titled name rest with
      | Some v => Some v
      | None => titled name el
      end
  end.

Definition or_zero (o : option string) : string :=
  match o with Some v => v | None => "0"%string end.

(** The keys of the answer of the test endpoint. *)
Definition test_fields : list string :=
  [ "status"; "message"; "username"; "joinedDate"; "totalSolved";
    "totalQuestions"; "easySolved"; "totalEasy"; "mediumSolved";
    "totalMedium"; "hardSolved"; "totalHard"; "ninjaSolved";
    "acceptanceRate"; "stabilityScore"; "ranking"; "contributionPoints";
    "reputation"; "submissionCalendar"; "currentStreak"; "longestStreak";
    "streakFreezeLeft"; "expcount"; "badge" ]%string.

(** The answer of the test endpoint to a failed fetch. *)
Definition test_failure (e : exn) : response :=
  {| status := 500;
     body := JObject [("status", JString "error");
                      ("message", JString "Failed test scrape");
                      ("details", JString (message e))]%string |}.

(** A page that shows a total and nothing else. *)
Definition page_with_total (el : string) : Document :=
  {| body_text := el; title := ""; href := "";
     total_el := Some el; difficulty_els := []; streak_container := None;
     member_since_el := None; some_class_el := None; join_date_el := None;
     xp_points_el := None; div_els := [] |}.

(** A page that shows difficulty counters and nothing else. *)
Definition page_with_difficulties (els : list Difficulty) : Document :=
  {| body_text := ""; title := ""; href := "";
     total_el := None; difficulty_els := els; streak_container := None;
     member_since_el := None; some_class_el := None; join_date_el := None;
     xp_points_el := None; div_els := [] |}.

End Observe.

(** * Properties *)

#[local] Arguments String.append !_ _ / : simpl nomatch.

(** ** Characters *)

Ltac by_cases_on_char c :=
  destruct c as [[] [] [] [] [] [] [] []];
  try reflexivity; try discriminate; try (vm_compute; congruence).

Lemma digit_not_space c : Char.is_digit c = true -> Char.is_space c = false.
Proof. by_cases_on_char c. Qed.

Lemma digit_radix10 c :
  Char.is_digit c = true -> Char.radix_digit 10 c = Some (Char.code c - 48).
Proof. by_cases_on_char c. Qed.

Lemma digit_no_sign c r :
  Char.is_digit c = true ->
  ParseInt.sign_and_rest (String c r) = (1, String c r).
Proof. by_cases_on_char c. Qed.

Lemma digit_range c : Char.is_digit c = true -> 0 <= Char.code c - 48 <= 9.
Proof.
  unfold Char.is_digit, Char.between. intros H.
  apply andb_true_iff in H as [H1 H2]. lia.
Qed.


Lemma remove_non_digits_all_digits s :
  Str.forallb Char.is_digit
    (Str.remove (fun c => negb (Char.is_digit c)) s) = true.
Proof.
  unfold Str.remove. induction s as [|c r IH]; simpl; [reflexivity|].
  destruct (Char.is_digit c) eqn:E; simpl; [rewrite E|]; assumption.
Qed.

Lemma remove_non_digits_value acc s :
  Coerce.digits_value_from acc
    (Str.remove (fun c => negb (Char.is_digit c)) s)
  = Coerce.digits_value_from acc s.
Proof.
  unfold Str.remove. revert acc.
  induction s as [|c r IH]; intros acc; simpl; [reflexivity|].
  destruct (Char.is_digit c) eqn:E; simpl; [rewrite E|]; apply IH.
Qed.

Lemma digits_value_from_nonneg s : forall acc, 0 <= acc -> 0 <= Coerce.digits_value_from acc s.
Proof.
  induction s as [|c r IH]; intros acc Hacc; simpl; [assumption|].
  destruct (Char.is_digit c) eqn:E; apply IH; [|assumption].
  pose proof (digit_range c E). lia.
Qed.

Lemma digit_free_value s :
  Str.forallb (fun c => negb (Char.is_digit c)) s = true ->
  forall acc, Coerce.digits_value_from acc s = acc.
Proof.
  induction s as [|c r IH]; simpl; intros H acc; [reflexivity|].
  apply andb_true_iff in H as [H1 H2].
  apply negb_true_iff in H1. rewrite H1. apply IH, H2.
Qed.

(** On a text of digits, [parseInt] finds no white space, no sign and no
    [0x] prefix, and reads every character. *)
Lemma digits_of_digit_string d :
  Str.forallb Char.is_digit d = true ->
  forall acc,
    fold_left (fun a x => a * 10 + x) (ParseInt.digits 10 d) acc
    = Coerce.digits_value_from acc d.
Proof.
  induction d as [|c r IH]; simpl; intros H acc; [reflexivity|].
  apply andb_true_iff in H as [H1 H2].
  rewrite digit_radix10, H1 by assumption. simpl. apply IH, H2.
Qed.

Lemma radix_of_digit_string c r :
  Str.forallb Char.is_digit (String c r) = true ->
  ParseInt.radix_and_rest (String c r) = (10, String c r).
Proof.
  simpl. intros H. apply andb_true_iff in H as [H1 H2].
  destruct r as [|x r']; [by_cases_on_char c|].
  simpl in H2. apply andb_true_iff in H2 as [H2 _].
  assert (Hx : Ascii.eqb x "x" || Ascii.eqb x "X" = false)
    by (revert H2; clear; by_cases_on_char x).
  unfold ParseInt.radix_and_rest.
  destruct c as [[] [] [] [] [] [] [] []]; try reflexivity; rewrite Hx; reflexivity.
Qed.

Lemma parseInt_digit_string c r :
  Str.forallb Char.is_digit (String c r) = true ->
  ParseInt.parseInt (String c r)
  = Number.of_integer (Coerce.digits_value (String c r)).
Proof.
  intros H. pose proof H as H'. simpl in H'.
  apply andb_true_iff in H' as [Hc Hr].
  unfold ParseInt.parseInt, Str.trimStart.
  assert (Hts : Str.drop_while Char.is_space (String c r) = String c r)
    by (simpl; rewrite (digit_not_space c Hc); reflexivity).
  rewrite Hts, (digit_no_sign c r Hc), (radix_of_digit_string c r H).
  pose proof (digits_of_digit_string _ H 0) as Hd.
  simpl ParseInt.digits in *. rewrite (digit_radix10 c Hc) in *.
  unfold ParseInt.mathInt. rewrite Hd, Z.mul_1_l. reflexivity.
Qed.

Lemma of_integer_nonneg m : 0 <= m -> Number.nonneg (Number.of_integer m).
Proof.
  intros Hm. unfold Number.of_integer.
  destruct (Z.abs m <? 2 ^ 53); [exact Hm|].
  set (e := Z.log2 (Z.abs m) - 52).
  set (q' := if _ || _ then _ else _).
  assert (0 <= Z.abs m / 2 ^ e)
    by (apply Z_div_nonneg_nonneg; [lia | apply Z.pow_nonneg; lia]).
  assert (Hq : 0 <= q') by (subst q'; destruct (_ || _); lia).
  destruct (2 ^ 1024 <=? q' * 2 ^ e).
  - replace (m <? 0) with false by (symmetry; apply Z.ltb_ge, Hm). exact I.
  - simpl. apply Z.mul_nonneg_nonneg; [lia|].
    apply Z.mul_nonneg_nonneg; [exact Hq | apply Z.pow_nonneg; lia].
Qed.

Lemma of_integer_exact m : 0 <= m <= 2 ^ 53 -> Number.of_integer m = Num m.
Proof.
  intros [H0 H1]. unfold Number.of_integer.
  destruct (Z.ltb_spec (Z.abs m) (2 ^ 53)) as [Hlt|Hge]; [reflexivity|].
  assert (m = 2 ^ 53) as -> by lia. reflexivity.
Qed.

Lemma of_integer_falsy m :
  0 <= m -> Number.or_else (Number.of_integer m) (Num 0) = Number.of_integer m.
Proof.
  intros Hm. pose proof (of_integer_nonneg m Hm) as Hn.
  unfold Number.or_else.
  destruct (Number.of_integer m) as [[| |]| | |]; simpl in *; try reflexivity.
  contradiction.
Qed.

(** [parseNumber] in closed form: the double nearest to the integer the
    digits of the text spell. *)
Lemma parseNumber_closed_form s :
  parseNumber (Some s) = Number.of_integer (Coerce.digits_value s).
Proof.
  unfold parseNumber. destruct s as [|c0 r0]; [reflexivity|].
  cbv beta iota delta [Str.is_empty].
  set (s := String c0 r0).
  pose proof (remove_non_digits_all_digits s) as Hall.
  pose proof (remove_non_digits_value 0 s) as Hval.
  unfold Coerce.digits_value.
  destruct (Str.remove _ s) as [|c r] eqn:E.
  - change (0 = Coerce.digits_value_from 0 s) in Hval.
    rewrite <- Hval. reflexivity.
  - rewrite (parseInt_digit_string c r Hall).
    unfold Coerce.digits_value. rewrite Hval.
    apply of_integer_falsy, digits_value_from_nonneg. lia.
Qed.

Lemma parseNumber_digit_free text :
  Coerce.digit_free text = true -> parseNumber text = Num 0.
Proof.
  destruct text as [s|]; [|reflexivity].
  intros H. rewrite parseNumber_closed_form.
  unfold Coerce.digits_value. rewrite (digit_free_value s H). reflexivity.
Qed.

Example parseNumber_lossy : parseNumber (Some "1,234 pts"%string) = Num 1234.
Proof. reflexivity. Qed.

(** C1, as stated, fails on a text whose digits spell an integer that
    is not a double: the digits of "9007199254740993" spell 2^53 + 1,
    and [parseInt] returns the nearest double, 2^53. *)
Lemma C1_counterexample_parseNumber_rounds :
  Coerce.digits_value "9007199254740993" = 9007199254740993 /\
  parseNumber (Some "9007199254740993"%string) = Num 9007199254740992 /\
  parseNumber (Some "9007199254740993"%string)
    <> Num (Coerce.digits_value "9007199254740993").
Proof.
  split; [reflexivity|]. split; [reflexivity|].
  vm_compute. intros H. discriminate H.
Qed.

(** C1 (amended). Numeric coercion is total and non-negative: null,
    empty and digit-free input yields 0; otherwise the result is the
    double nearest to the base-10 integer spelled by the digit characters
    of the input, in order, every other character (a minus sign too)
    dropped, and it equals that integer whenever the integer is at most
    2^53. In particular "1,234" gives 1234, "" gives 0, "abc" gives 0,
    null gives 0 and "-5" gives 5. *)
Theorem C1_parseNumber_coercion :
  (forall text, Number.nonneg (parseNumber text)) /\
  (forall text, Coerce.digit_free text = true -> parseNumber text = Num 0) /\
  (forall s, parseNumber (Some s) = Number.of_integer (Coerce.digits_value s)) /\
  (forall s, Coerce.digits_value s <= 2 ^ 53 ->
             parseNumber (Some s) = Num (Coerce.digits_value s)) /\
  parseNumber (Some "1,234"%string) = Num 1234 /\
  parseNumber (Some ""%string) = Num 0 /\
  parseNumber (Some "abc"%string) = Num 0 /\
  parseNumber None = Num 0 /\
  parseNumber (Some "-5"%string) = Num 5.
Proof.
  assert (Hv : forall s, 0 <= Coerce.digits_value s)
    by (intros s; apply digits_value_from_nonneg; lia).
  repeat split; try reflexivity.
  - intros [s|]; [|simpl; lia].
    rewrite parseNumber_closed_form. apply of_integer_nonneg, Hv.
  - apply parseNumber_digit_free.
  - apply parseNumber_closed_form.
  - intros s Hs. rewrite parseNumber_closed_form.
    apply of_integer_exact. split; [apply Hv | exact Hs].
Qed.

Lemma C1_parseNumber_coercion_witness :
  Coerce.digit_free (Some "n/a"%string) = true /\
  parseNumber (Some "n/a"%string) = Num 0 /\
  Coerce.digits_value "3,400 XP" <= 2 ^ 53 /\
  parseNumber (Some "3,400 XP"%string) = Num (Coerce.digits_value "3,400 XP").
Proof.
  destruct C1_parseNumber_coercion as (_ & Hfree & _ & Hexact & _).
  split; [reflexivity|].
  split; [apply Hfree; reflexivity|].
  split; [vm_compute; discriminate|].
  apply Hexact. vm_compute. discriminate.
Defined.

(** ** Date coercion *)

Section Trim.

Variable p : ascii -> bool.

Lemma take_drop_while s : s = Str.take_while p s +:+ Str.drop_while p s.
Proof.
  induction s as [|c r IH]; simpl; [reflexivity|].
  destruct (p c); simpl; [f_equal; exact IH | reflexivity].
Qed.

Lemma take_while_all s : Str.forallb p (Str.take_while p s) = true.
Proof.
  induction s as [|c r IH]; simpl; [reflexivity|].
  destruct (p c) eqn:E; simpl; [rewrite E; exact IH | reflexivity].
Qed.

Lemma drop_while_head s : Str.head_is p (Str.drop_while p s) = false.
Proof.
  induction s as [|c r IH]; simpl; [reflexivity|].
  destruct (p c) eqn:E; simpl; [exact IH | exact E].
Qed.

Lemma drop_while_id s : Str.head_is p s = false -> Str.drop_while p s = s.
Proof. destruct s as [|c r]; simpl; [reflexivity|]. intros ->. reflexivity. Qed.

End Trim.

Lemma is_empty_true s : Str.is_empty s = true -> s = EmptyString.
Proof. destruct s; [reflexivity | discriminate]. Qed.

Lemma app_empty_r s : s +:+ "" = s.
Proof. induction s as [|c r IH]; simpl; [reflexivity | f_equal; exact IH]. Qed.

Lemma app_assoc' a b c : (a +:+ b) +:+ c = a +:+ b +:+ c.
Proof. induction a as [|x r IH]; simpl; [reflexivity | f_equal; exact IH]. Qed.

(** What [trimEnd] cuts off is white space. *)
Lemma trimEnd_split s :
  exists w, s = Str.trimEnd s +:+ w /\ DateSpec.blank w.
Proof.
  induction s as [|c r (w & Hr & Hw)]; [exists ""%string; split; reflexivity|].
  simpl. destruct (Char.is_space c) eqn:Ec; simpl.
  - destruct (Str.is_empty (Str.trimEnd r)) eqn:Ee.
    + apply is_empty_true in Ee. rewrite Ee in Hr. simpl in Hr. subst r.
      exists (String c w). split; [reflexivity|].
      unfold DateSpec.blank. simpl. rewrite Ec. exact Hw.
    + exists w. split; [simpl; f_equal; exact Hr | exact Hw].
  - exists w. split; [simpl; f_equal; exact Hr | exact Hw].
Qed.

Lemma trimEnd_last s : Str.last_is Char.is_space (Str.trimEnd s) = false.
Proof.
  induction s as [|c r IH]; [reflexivity|].
  simpl. destruct (Str.trimEnd r) as [|d r'] eqn:E.
  - destruct (Char.is_space c) eqn:Ec; simpl; [reflexivity | exact Ec].
  - rewrite andb_false_r. exact IH.
Qed.

Lemma trimEnd_head s :
  Str.head_is Char.is_space s = false ->
  Str.head_is Char.is_space (Str.trimEnd s) = false.
Proof.
  destruct s as [|c r]; simpl; [reflexivity|].
  intros Hc. rewrite Hc. simpl. exact Hc.
Qed.

Lemma trimEnd_tail c r :
  Str.trimEnd (String c r) = String c r -> Str.trimEnd r = r.
Proof.
  simpl. destruct (Char.is_space c && Str.is_empty (Str.trimEnd r));
    [discriminate | congruence].
Qed.

(** A text that ends in no white space has no suffix that does. *)
Lemma trimEnd_suffix a r :
  Str.trimEnd (a +:+ r) = a +:+ r -> Str.trimEnd r = r.
Proof.
  induction a as [|c a' IH]; simpl String.append; [auto|].
  intros H. apply IH, (trimEnd_tail c), H.
Qed.

Lemma trimEnd_idem s : Str.trimEnd (Str.trimEnd s) = Str.trimEnd s.
Proof.
  induction s as [|c r IH]; [reflexivity|].
  simpl. destruct (Char.is_space c && Str.is_empty (Str.trimEnd r)) eqn:E;
    [reflexivity|].
  simpl. rewrite IH, E. reflexivity.
Qed.

Lemma trim_trimmed s : DateSpec.trimmed s (Str.trim s).
Proof.
  unfold Str.trim, Str.trimStart.
  destruct (trimEnd_split (Str.drop_while Char.is_space s)) as (w2 & H2 & Hw2).
  exists (Str.take_while Char.is_space s), w2.
  split; [|split; [|split; [|split]]].
  - rewrite <- H2. apply take_drop_while.
  - apply take_while_all.
  - exact Hw2.
  - apply trimEnd_head, drop_while_head.
  - apply trimEnd_last.
Qed.

(** A text with no white space at either end is left as it is by
    [trim]. *)
Lemma trim_id s :
  Str.head_is Char.is_space s = false -> Str.trimEnd s = s -> Str.trim s = s.
Proof.
  intros Hh He. unfold Str.trim, Str.trimStart.
  rewrite drop_while_id by exact Hh. exact He.
Qed.

Lemma strip_prefix_sound pat : forall t r,
  Str.strip_prefix Char.eqb_ci pat t = Some r ->
  exists p, t = p +:+ r /\ DateSpec.eq_ci pat p = true.
Proof.
  induction pat as [|a pat' IH]; simpl; intros t r H.
  - exists ""%string. split; [simpl; congruence | reflexivity].
  - destruct t as [|b t']; [discriminate|].
    destruct (Char.eqb_ci a b) eqn:E; [|discriminate].
    destruct (IH _ _ H) as (p & -> & Hp).
    exists (String b p). split; [reflexivity|].
    simpl. rewrite E. exact Hp.
Qed.

Lemma strip_prefix_complete pat : forall p r,
  DateSpec.eq_ci pat p = true ->
  Str.strip_prefix Char.eqb_ci pat (p +:+ r) = Some r.
Proof.
  induction pat as [|a pat' IH]; intros [|b p'] r H; simpl in *;
    try discriminate; [reflexivity|].
  apply andb_true_iff in H as [-> H]. apply IH, H.
Qed.

Lemma alternatives_sound t r :
  DatePrefix.alternatives t = Some r ->
  exists p, t = p +:+ r /\ DateSpec.prefix_word p.
Proof.
  unfold DatePrefix.alternatives, DateSpec.prefix_word. intros H.
  destruct (Str.strip_prefix Char.eqb_ci "Joined on" t) as [r1|] eqn:E1.
  - injection H as <-. destruct (strip_prefix_sound _ _ _ E1) as (p & ? & ?).
    exists p. auto.
  - destruct (strip_prefix_sound _ _ _ H) as (p & ? & ?). exists p. auto.
Qed.

Lemma alternatives_complete t :
  DatePrefix.alternatives t = None ->
  forall p r, DateSpec.prefix_word p -> t <> p +:+ r.
Proof.
  unfold DatePrefix.alternatives. intros H p r [Hp|Hp] ->.
  - rewrite (strip_prefix_complete _ _ r Hp) in H. discriminate.
  - rewrite (strip_prefix_complete _ _ r Hp) in H.
    destruct (Str.strip_prefix _ "Joined on" _); discriminate.
Qed.

Lemma optional_colon_split r :
  exists c,
    r = c +:+ DatePrefix.optional_colon r /\
    (c = ":"%string \/
     (c = EmptyString /\ Str.head_is (Ascii.eqb ":") (DatePrefix.optional_colon r) = false)).
Proof.
  destruct r as [|x r']; [exists ""%string; split; [reflexivity | right; split; reflexivity]|].
  destruct (Ascii.eqb ":" x) eqn:E.
  - apply Ascii.eqb_eq in E. subst x. exists ":"%string. split; [reflexivity | left; reflexivity].
  - exists ""%string.
    assert (Hid : DatePrefix.optional_colon (String x r') = String x r').
    { revert E. clear. by_cases_on_char x. }
    rewrite Hid. split; [reflexivity | right; split; [reflexivity | exact E]].
Qed.

Lemma head_colon_drop_space s :
  Str.head_is (Ascii.eqb ":") s = false ->
  Str.head_is (Ascii.eqb ":")
    (Str.take_while Char.is_space s +:+ Str.drop_while Char.is_space s) = false.
Proof. rewrite <- take_drop_while. auto. Qed.

(** The prefix removal of [parseDate], on a trimmed text: the result is
    the text stripped as [DateSpec.stripped] says, and the second [trim]
    of line 40 finds nothing to remove. *)
Lemma remove_prefix_stripped t :
  Str.head_is Char.is_space t = false ->
  Str.trimEnd t = t ->
  DateSpec.stripped t (DatePrefix.remove t) /\
  Str.trim (DatePrefix.remove t) = DatePrefix.remove t.
Proof.
  intros Hh He. unfold DatePrefix.remove.
  destruct (DatePrefix.alternatives t) as [r0|] eqn:Ea.
  - destruct (alternatives_sound _ _ Ea) as (p & Ht & Hp).
    destruct (optional_colon_split r0) as (c & Hr0 & Hc).
    set (r1 := DatePrefix.optional_colon r0) in *.
    split.
    + apply (DateSpec.with_prefix t p c
               (Str.take_while Char.is_space r1) (Str.drop_while Char.is_space r1)).
      * rewrite <- take_drop_while, <- Hr0. exact Ht.
      * exact Hp.
      * destruct Hc as [Hc|[Hc Hn]]; [left; exact Hc|].
        right. split; [exact Hc | apply head_colon_drop_space, Hn].
      * apply take_while_all.
      * apply drop_while_head.
    + apply trim_id; [apply drop_while_head|].
      apply (trimEnd_suffix (p +:+ c +:+ Str.take_while Char.is_space r1)).
      rewrite !app_assoc', <- take_drop_while, <- Hr0, <- Ht. exact He.
  - split; [apply DateSpec.without_prefix, alternatives_complete, Ea|].
    apply trim_id; assumption.
Qed.

Lemma parseDate_nonempty c r :
  parseDate (Some (String c r))
  = Some (DatePrefix.remove (Str.trim (String c r))).
Proof.
  unfold parseDate. cbv beta iota delta [Str.is_empty].
  set (t := Str.trim (String c r)).
  assert (Hh : Str.head_is Char.is_space t = false)
    by (apply trimEnd_head, drop_while_head).
  assert (He : Str.trimEnd t = t) by apply trimEnd_idem.
  destruct (remove_prefix_stripped t Hh He) as [_ ->]. reflexivity.
Qed.

(** C2, as stated, fails on the empty text: it is not null, yet
    [parseDate] returns null for it and not the (empty) remainder. *)
Lemma C2_counterexample_parseDate_empty :
  parseDate (Some ""%string) = None /\
  parseDate (Some ""%string)
    <> Some (DatePrefix.remove (Str.trim "")).
Proof. split; [reflexivity | discriminate]. Qed.

(** C2 (amended). Date coercion is total: null input and the empty
    text return null; any other input is trimmed of surrounding white
    space, a single leading case-insensitive prefix "Joined on" or
    "Member since" (with its optional colon and the white space after
    it) is stripped, and the remainder is returned unchanged. In
    particular "Joined on: March 2021" gives "March 2021",
    "  Member since:June 2020" gives "June 2020", null gives null and
    "March 2021" gives "March 2021". *)
Theorem C2_parseDate_coercion :
  parseDate None = None /\
  parseDate (Some ""%string) = None /\
  (forall s, s <> EmptyString ->
     exists t r,
       DateSpec.trimmed s t /\ DateSpec.stripped t r /\
       parseDate (Some s) = Some r) /\
  parseDate (Some "Joined on: March 2021"%string) = Some "March 2021"%string /\
  parseDate (Some "  Member since:June 2020"%string) = Some "June 2020"%string /\
  parseDate (Some "March 2021"%string) = Some "March 2021"%string.
Proof.
  repeat split; try reflexivity.
  intros [|c r] Hs; [contradiction|].
  exists (Str.trim (String c r)), (DatePrefix.remove (Str.trim (String c r))).
  split; [apply trim_trimmed|].
  split; [|apply parseDate_nonempty].
  apply remove_prefix_stripped;
    [apply trimEnd_head, drop_while_head | apply trimEnd_idem].
Qed.

Lemma C2_parseDate_coercion_witness :
  exists t r,
    DateSpec.trimmed " joined ON:  Jan 2022 " t /\ DateSpec.stripped t r /\
    parseDate (Some " joined ON:  Jan 2022 "%string) = Some r.
Proof.
  destruct C2_parseDate_coercion as (_ & _ & H & _).
  apply H. discriminate.
Defined.

(** ** The response formatter *)

Lemma or_else_zero_if_falsy n :
  FormatSpec.zero_if_falsy n (Some (JNumber (Number.or_else n (Num 0)))).
Proof.
  unfold FormatSpec.zero_if_falsy, Number.or_else.
  destruct (Number.falsy n); split; intros H; try discriminate H; reflexivity.
Qed.

Lemma or_null_null_if_falsy o :
  FormatSpec.null_if_falsy o (Some (Json.of_option_string (or_null o))).
Proof.
  unfold FormatSpec.null_if_falsy, or_null. split.
  - intros ->. reflexivity.
  - intros s -> Hs. destruct s; [contradiction | reflexivity].
Qed.

(** C3. The response formatter is a total function to an object with
    the fixed schema: whatever the normalized record, the response has
    exactly the fixed fields; each extracted numeric field follows the
    default-if-falsy rule (falsy gives 0), joinedDate and badge give null
    when falsy, and the placeholders are always there with their neutral
    defaults: totalQuestions, totalEasy, totalMedium, totalHard, ranking,
    contributionPoints and reputation 0, acceptanceRate 0.0,
    submissionCalendar an empty mapping. *)
Theorem C3_format_response_schema (username : string) (stats : Stats.t) :
  let r := format_response username stats in
  let at_ key := Json.field key r in
  Json.keys r = FormatSpec.fixed_fields /\
  NoDup FormatSpec.fixed_fields /\
  at_ "status"%string = Some (JString "success") /\
  at_ "message"%string = Some (JString "retrieved") /\
  at_ "username"%string = Some (JString username) /\
  FormatSpec.zero_if_falsy (Stats.totalSolved stats) (at_ "totalSolved"%string) /\
  FormatSpec.zero_if_falsy (Stats.easySolved stats) (at_ "easySolved"%string) /\
  FormatSpec.zero_if_falsy (Stats.moderateSolved stats) (at_ "mediumSolved"%string) /\
  FormatSpec.zero_if_falsy (Stats.hardSolved stats) (at_ "hardSolved"%string) /\
  FormatSpec.zero_if_falsy (Stats.ninjaSolved stats) (at_ "ninjaSolved"%string) /\
  FormatSpec.zero_if_falsy (Stats.currentStreak stats) (at_ "currentStreak"%string) /\
  FormatSpec.zero_if_falsy (Stats.longestStreak stats) (at_ "longestStreak"%string) /\
  FormatSpec.zero_if_falsy (Stats.streakFreezeLeft stats) (at_ "streakFreezeLeft"%string) /\
  FormatSpec.zero_if_falsy (Stats.expcount stats) (at_ "expcount"%string) /\
  FormatSpec.null_if_falsy (Stats.joinedDate stats) (at_ "joinedDate"%string) /\
  FormatSpec.null_if_falsy (Stats.badge stats) (at_ "badge"%string) /\
  at_ "totalQuestions"%string = Some (JNumber (Num 0)) /\
  at_ "totalEasy"%string = Some (JNumber (Num 0)) /\
  at_ "totalMedium"%string = Some (JNumber (Num 0)) /\
  at_ "totalHard"%string = Some (JNumber (Num 0)) /\
  at_ "ranking"%string = Some (JNumber (Num 0)) /\
  at_ "contributionPoints"%string = Some (JNumber (Num 0)) /\
  at_ "reputation"%string = Some (JNumber (Num 0)) /\
  at_ "acceptanceRate"%string = Some (JNumber (Num 0)) /\
  at_ "submissionCalendar"%string = Some (JObject []).
Proof.
  cbv zeta.
  repeat match goal with |- _ /\ _ => split end;
    try reflexivity;
    try exact (or_else_zero_if_falsy _);
    try exact (or_null_null_if_falsy _).
  apply (bool_decide_unpack _). vm_compute. exact I.
Qed.

Lemma C3_format_response_schema_witness :
  Json.keys (format_response "Codushan" (FormatSpec.all_default "" "" ""))
  = FormatSpec.fixed_fields /\
  Json.field "totalSolved" (format_response "Codushan" (FormatSpec.all_default "" "" ""))
  = Some (JNumber (Num 0)).
Proof.
  pose proof (C3_format_response_schema "Codushan" (FormatSpec.all_default "" "" ""))
    as H.
  cbv zeta in H. destruct H as (Hkeys & _ & _ & _ & _ & [Hzero _] & _).
  split; [exact Hkeys|]. apply Hzero. reflexivity.
Defined.

(** ** Badge extraction *)

Lemma space_not_digit c : Char.is_space c = true -> Char.is_digit c = false.
Proof. by_cases_on_char c. Qed.

Lemma word_not_space c : Char.is_word c = true -> Char.is_space c = false.
Proof. by_cases_on_char c. Qed.

Section Runs.

Variable p : ascii -> bool.

Lemma head_take_while s :
  Str.head_is p s = true -> Str.take_while p s <> EmptyString.
Proof. destruct s as [|c r]; simpl; [discriminate|]. intros ->. discriminate. Qed.

Lemma nonempty_head s :
  BadgeSpec.nonempty_of p s -> forall r, Str.head_is p (s +:+ r) = true.
Proof.
  intros [Hne Hall] r. destruct s as [|c s']; [contradiction|].
  simpl in *. apply andb_true_iff in Hall as [Hc _]. exact Hc.
Qed.

Lemma drop_while_app s r :
  Str.forallb p s = true -> Str.drop_while p (s +:+ r) = Str.drop_while p r.
Proof.
  induction s as [|c s' IH]; simpl; [reflexivity|].
  intros H. apply andb_true_iff in H as [-> H]. apply IH, H.
Qed.

Lemma head_split s :
  Str.head_is p s = true ->
  exists c r, s = String c r /\ p c = true.
Proof. destruct s as [|c r]; simpl; [discriminate|]. eauto. Qed.

End Runs.

Lemma head_is_impl (p q : ascii -> bool) s :
  (forall c, p c = true -> q c = false) ->
  Str.head_is p s = true -> Str.head_is q s = false.
Proof. intros Hpq. destruct s as [|c r]; simpl; [discriminate | apply Hpq]. Qed.

(** The scan of [leading_number_word] finds exactly the matches of the
    regular expression. *)
Lemma leading_number_word_spec text :
  Extract.leading_number_word text = true <-> BadgeSpec.leading_number_word text.
Proof.
  unfold Extract.leading_number_word. split.
  - intros H. apply andb_true_iff in H as [H Hw].
    apply andb_true_iff in H as [Hd Hs].
    destruct (head_split _ _ Hw) as (c & rest & Hrest & Hc).
    exists (Str.take_while Char.is_digit text),
      (Str.take_while Char.is_space (Str.drop_while Char.is_digit text)),
      (String c ""), rest.
    split; [|split; [|split]].
    + change (String c "" +:+ rest) with (String c rest).
      rewrite <- Hrest, <- !take_drop_while. reflexivity.
    + split; [apply head_take_while, Hd | apply take_while_all].
    + split; [apply head_take_while, Hs | apply take_while_all].
    + split; [discriminate | simpl; rewrite Hc; reflexivity].
  - intros (ds & ws & w & rest & -> & Hds & Hws & Hw).
    assert (H1 : Str.drop_while Char.is_digit (ds +:+ ws +:+ w +:+ rest)
                 = ws +:+ w +:+ rest).
    { rewrite drop_while_app by apply Hds.
      apply drop_while_id, (head_is_impl Char.is_space); [apply space_not_digit|].
      apply nonempty_head, Hws. }
    assert (H2 : Str.drop_while Char.is_space (ws +:+ w +:+ rest) = w +:+ rest).
    { rewrite drop_while_app by apply Hws.
      apply drop_while_id, (head_is_impl Char.is_word); [apply word_not_space|].
      apply nonempty_head, Hw. }
    rewrite H1, H2.
    rewrite !nonempty_head by assumption. reflexivity.
Qed.

Lemma strip_prefix_eqb p : forall s r,
  Str.strip_prefix Ascii.eqb p s = Some r <-> s = p +:+ r.
Proof.
  induction p as [|a p' IH]; intros s r; simpl.
  - split; congruence.
  - destruct s as [|b s'].
    + split; discriminate.
    + destruct (Ascii.eqb a b) eqn:E.
      * apply Ascii.eqb_eq in E. subst b. rewrite IH. split; congruence.
      * apply Ascii.eqb_neq in E. split; [discriminate | congruence].
Qed.

Lemma startsWith_spec p s : Str.startsWith p s = true <-> exists r, s = p +:+ r.
Proof.
  unfold Str.startsWith.
  destruct (Str.strip_prefix Ascii.eqb p s) as [r|] eqn:E.
  - apply strip_prefix_eqb in E. split; eauto.
  - split; [discriminate|]. intros [r Hr].
    apply strip_prefix_eqb in Hr. congruence.
Qed.

(** [s.includes(t)]: [t] occurs somewhere in [s]. *)
Lemma includes_spec s t :
  Str.includes s t = true <-> exists a b, s = a +:+ t +:+ b.
Proof.
  split.
  - induction s as [|c r IH]; simpl; intros H;
      apply orb_true_iff in H as [H|H].
    + apply startsWith_spec in H as [b Hb]. exists ""%string, b. exact Hb.
    + discriminate.
    + apply startsWith_spec in H as [b Hb]. exists ""%string, b. exact Hb.
    + destruct (IH H) as (a & b & ->). exists (String c a), b. reflexivity.
  - intros (a & b & ->). induction a as [|c a' IH].
    + destruct (t +:+ b) eqn:E; simpl; apply orb_true_iff; left;
        apply startsWith_spec; exists b; simpl; congruence.
    + simpl. rewrite IH. apply orb_true_r.
Qed.


Lemma map_app f a b : Str.map f (a +:+ b) = Str.map f a +:+ Str.map f b.
Proof. induction a as [|c a' IH]; simpl; [reflexivity | f_equal; exact IH]. Qed.

Lemma map_app_inv f : forall s x y,
  Str.map f s = x +:+ y ->
  exists s1 s2, s = s1 +:+ s2 /\ Str.map f s1 = x /\ Str.map f s2 = y.
Proof.
  intros s x. revert s.
  induction x as [|c x' IH]; intros s y H.
  - exists ""%string, s. auto.
  - destruct s as [|d s']; [discriminate|].
    simpl in H. injection H as Hc H.
    destruct (IH _ _ H) as (s1 & s2 & -> & H1 & H2).
    exists (String d s1), s2. simpl. rewrite Hc, H1. auto.
Qed.

Lemma contains_ci_spec text keyword :
  Str.includes (Str.toLowerCase text) keyword = true
  <-> BadgeSpec.contains_ci text keyword.
Proof.
  unfold BadgeSpec.contains_ci, Str.toLowerCase. rewrite includes_spec. split.
  - intros (a' & b' & H).
    destruct (map_app_inv _ _ _ _ H) as (a & kb & -> & _ & H').
    destruct (map_app_inv _ _ _ _ H') as (k & b & -> & Hk & _).
    exists a, k, b. auto.
  - intros (a & k & b & -> & <-).
    exists (Str.map Char.lower a), (Str.map Char.lower b).
    rewrite !map_app. reflexivity.
Qed.

Lemma is_badge_spec div :
  Extract.is_badge div = true <-> BadgeSpec.qualifies (Str.trim div).
Proof.
  unfold Extract.is_badge, BadgeSpec.qualifies.
  rewrite andb_true_iff, !orb_true_iff, leading_number_word_spec,
    !contains_ci_spec.
  tauto.
Qed.

Lemma is_badge_false div :
  Extract.is_badge div = false <-> ~ BadgeSpec.qualifies (Str.trim div).
Proof.
  rewrite <- is_badge_spec. destruct (Extract.is_badge div); split; congruence.
Qed.

Lemma find_first_qualifying divs el :
  BadgeSpec.first_qualifying divs el -> List.find Extract.is_badge divs = Some el.
Proof.
  intros (before & after & -> & Hb & Hq).
  induction Hb as [|x before' Hx _ IH]; simpl.
  - apply is_badge_spec in Hq. rewrite Hq. reflexivity.
  - apply is_badge_false in Hx. rewrite Hx. exact IH.
Qed.

Lemma find_none_qualifying divs :
  Forall (fun x => ~ BadgeSpec.qualifies (Str.trim x)) divs ->
  List.find Extract.is_badge divs = None.
Proof.
  induction 1 as [|x rest Hx _ IH]; simpl; [reflexivity|].
  apply is_badge_false in Hx. rewrite Hx. exact IH.
Qed.

Lemma first_qualifying_or_none divs :
  (exists el, BadgeSpec.first_qualifying divs el) \/
  Forall (fun x => ~ BadgeSpec.qualifies (Str.trim x)) divs.
Proof.
  induction divs as [|x rest IH]; [right; constructor|].
  destruct (Extract.is_badge x) eqn:E.
  - left. exists x, [], rest. split; [reflexivity|].
    split; [constructor | apply is_badge_spec, E].
  - apply is_badge_false in E. destruct IH as [(el & b & a & -> & Hb & Hq)|Hn].
    + left. exists el, (x :: b), a. split; [reflexivity|].
      split; [constructor; assumption | exact Hq].
    + right. constructor; assumption.
Qed.

(** C8. Over the [div] elements in document order, the badge is the
    trimmed text of the first element whose trimmed text both matches the
    leading "number then word" pattern and holds, in any case, one of the
    keywords "achiever", "badge", "rank"; the first match wins, and with
    no such element the badge is left null. One of the two always
    applies. *)
Theorem C8_badge_first_match (d : Document) :
  (forall el, BadgeSpec.first_qualifying (div_els d) el ->
              Raw.badge (Extract.stats d) = Some (Str.trim el)) /\
  (Forall (fun x => ~ BadgeSpec.qualifies (Str.trim x)) (div_els d) ->
   Raw.badge (Extract.stats d) = None) /\
  ((exists el, BadgeSpec.first_qualifying (div_els d) el) \/
   Forall (fun x => ~ BadgeSpec.qualifies (Str.trim x)) (div_els d)).
Proof.
  simpl. unfold Extract.badge. split; [|split].
  - intros el H. rewrite (find_first_qualifying _ _ H). reflexivity.
  - intros H. rewrite (find_none_qualifying _ H). reflexivity.
  - apply first_qualifying_or_none.
Qed.

Lemma C8_badge_first_match_witness :
  BadgeSpec.first_qualifying (div_els Sample.codushan) " 5 Star Achiever " /\
  Raw.badge (Extract.stats Sample.codushan) = Some "5 Star Achiever"%string.
Proof.
  assert (H : BadgeSpec.first_qualifying (div_els Sample.codushan) " 5 Star Achiever ").
  { exists ["Codushan"; "Problems solved 120"]%string, ["12 Rank holder"%string].
    split; [reflexivity|]. split.
    - repeat constructor; apply is_badge_false; reflexivity.
    - apply is_badge_spec. reflexivity. }
  split; [exact H|].
  exact (proj1 (C8_badge_first_match Sample.codushan) _ H).
Defined.

(** ** The page extractor and the profile fetcher *)

Example sample_scenario :
  Scr.result (scrapeCode360 (Sample.session Sample.codushan) "Codushan")
  = Ok {| Stats.totalSolved := Num 120; Stats.easySolved := Num 50;
          Stats.moderateSolved := Num 40; Stats.hardSolved := Num 30;
          Stats.ninjaSolved := Num 0; Stats.currentStreak := Num 5;
          Stats.longestStreak := Num 12; Stats.streakFreezeLeft := Num 2;
          Stats.joinedDate := Some "Jan 2022"%string;
          Stats.expcount := Num 3400;
          Stats.badge := Some "5 Star Achiever"%string;
          Stats.pageTitle := "Codushan | Code360";
          Stats.url := "https://www.naukri.com/code360/profile/Codushan";
          Stats.debug := "Codushan 120 Problems solved 5 Star Achiever" |}.
Proof. vm_compute. reflexivity. Qed.

Lemma result_bind {A B} (m : Scr.t A) (k : A -> Scr.t B) :
  Scr.result (Scr.bind m k)
  = match Scr.result m with
    | Ok a => Scr.result (k a)
    | Throw e => Throw e
    end.
Proof. destruct m as [[a|e] tr]; simpl; [destruct (k a)|]; reflexivity. Qed.

Lemma trace_bind {A B} (m : Scr.t A) (k : A -> Scr.t B) :
  Scr.trace (Scr.bind m k)
  = Scr.trace m ++ match Scr.result m with
                   | Ok a => Scr.trace (k a)
                   | Throw e => []
                   end.
Proof.
  destruct m as [[a|e] tr]; simpl; [destruct (k a); reflexivity|].
  symmetry. apply app_nil_r.
Qed.

Lemma result_try_catch {A} (m : Scr.t A) (h : exn -> Scr.t A) :
  Scr.result (Scr.try_catch m h)
  = match Scr.result m with
    | Ok a => Ok a
    | Throw e => Scr.result (h e)
    end.
Proof. destruct m as [[a|e] tr]; simpl; [|destruct (h e)]; reflexivity. Qed.

Lemma trace_try_catch {A} (m : Scr.t A) (h : exn -> Scr.t A) :
  Scr.trace (Scr.try_catch m h)
  = Scr.trace m ++ match Scr.result m with
                   | Ok a => []
                   | Throw e => Scr.trace (h e)
                   end.
Proof.
  destruct m as [[a|e] tr]; simpl; [|destruct (h e); reflexivity].
  symmetry. apply app_nil_r.
Qed.

Lemma wait_for_content_result s :
  Scr.result (wait_for_content s)
  = match wait_problems_error s with
    | Some m => match PageSpec.escalation (Some m) with Some e => Throw e | None => Ok tt end
    | None => match PageSpec.escalation (wait_streak_error s) with Some e => Throw e | None => Ok tt end
    end.
Proof.
  unfold wait_for_content, PageSpec.escalation.
  destruct (wait_problems_error s) as [m|]; simpl.
  - destruct (Str.includes m "timeout"); reflexivity.
  - destruct (wait_streak_error s) as [m|]; simpl.
    + destruct (Str.includes m "timeout"); reflexivity.
    + destruct (wait_xp_error s); reflexivity.
Qed.

Lemma wait_for_content_no_script s what :
  ~ In (Evaluate what) (Scr.trace (wait_for_content s)).
Proof.
  unfold wait_for_content.
  destruct (wait_problems_error s) as [m|]; simpl.
  - destruct (Str.includes m "timeout"); simpl; intuition discriminate.
  - destruct (wait_streak_error s) as [m|]; simpl.
    + destruct (Str.includes m "timeout"); simpl; intuition discriminate.
    + destruct (wait_xp_error s); simpl; intuition discriminate.
Qed.

Lemma scrape_session_result s u :
  Scr.result (scrape_session s u)
  = match goto_error s with
    | Some m => Throw (Error m)
    | None =>
        match Scr.result (wait_for_content s) with
        | Throw e => Throw e
        | Ok _ =>
            if Extract.profileExists (document s)
            then Ok (normalize (Extract.stats (document s)))
            else Throw ErrorSpec.ProfileNotFound
        end
    end.
Proof.
  unfold scrape_session.
  remember (wait_for_content s) as w eqn:Ew.
  destruct (goto_error s); [reflexivity|].
  destruct w as [[[]|e] tr]; simpl; [|reflexivity].
  destruct (Extract.profileExists (document s)); reflexivity.
Qed.

Lemma scrape_session_trace s u :
  exists before,
    ~ In (Evaluate ExtractStatsScript) before /\
    ~ In Launch before /\
    Scr.trace (scrape_session s u)
    = before ++
      match Scr.result (scrape_session s u) with
      | Ok _ => [Evaluate ExtractStatsScript; CloseBrowser]
      | Throw _ => []
      end.
Proof.
  pose proof (wait_for_content_no_script s ExtractStatsScript) as Hw.
  assert (Hl : ~ In Launch (Scr.trace (wait_for_content s))).
  { clear. unfold wait_for_content.
    destruct (wait_problems_error s) as [m|]; simpl.
    - destruct (Str.includes m "timeout"); simpl; intuition discriminate.
    - destruct (wait_streak_error s) as [m|]; simpl.
      + destruct (Str.includes m "timeout"); simpl; intuition discriminate.
      + destruct (wait_xp_error s); simpl; intuition discriminate. }
  unfold scrape_session.
  remember (wait_for_content s) as w eqn:Ew.
  destruct (goto_error s).
  - eexists. split; [|split; [|simpl; rewrite app_nil_r; reflexivity]];
      simpl; intuition discriminate.
  - destruct w as [[[]|e] tr]; simpl in *.
    + destruct (Extract.profileExists (document s)); simpl.
      * exists ([NewPage; SetUserAgent; SetViewport; SetExtraHTTPHeaders;
                 Console LogLevel ("Attempting to scrape Code360 profile: " +:+ profileUrl u);
                 Goto (profileUrl u) 45000] ++ tr ++ [Evaluate ProfileExistsScript]).
        split; [|split; [|rewrite <- !app_assoc; reflexivity]];
          rewrite !in_app_iff; simpl; intuition discriminate.
      * eexists. split; [|split; [|rewrite app_nil_r; reflexivity]];
          rewrite ?in_app_iff; simpl; rewrite ?in_app_iff; simpl;
          intuition discriminate.
    + eexists. split; [|split; [|rewrite app_nil_r; reflexivity]];
        rewrite ?in_app_iff; simpl; rewrite ?in_app_iff; simpl;
        intuition discriminate.
Qed.

Lemma scrapeCode360Puppeteer_result s u :
  Scr.result (scrapeCode360Puppeteer s u)
  = match launch_error s with
    | Some m => Throw (Error m)
    | None => Scr.result (scrape_session s u)
    end.
Proof.
  unfold scrapeCode360Puppeteer.
  destruct (launch_error s); [reflexivity|].
  destruct (scrape_session s u) as [[stats|e] tr]; reflexivity.
Qed.

Lemma scrapeCode360_result s u :
  Scr.result (scrapeCode360 s u) = Scr.result (scrapeCode360Puppeteer s u).
Proof.
  unfold scrapeCode360.
  destruct (scrapeCode360Puppeteer s u) as [[stats|e] tr]; [|reflexivity].
  simpl. destruct (no_statistics stats); reflexivity.
Qed.

Lemma scrapeCode360Puppeteer_trace s u :
  Scr.trace (scrapeCode360Puppeteer s u)
  = Launch ::
    match launch_error s with
    | Some m => [Console ErrorLevel ("Puppeteer scraping error for Code360: " +:+ m)]
    | None =>
        Scr.trace (scrape_session s u) ++
        match Scr.result (scrape_session s u) with
        | Ok _ => []
        | Throw e =>
            [CloseBrowser;
             Console ErrorLevel ("Puppeteer scraping error for Code360: " +:+ message e)]
        end
    end.
Proof.
  unfold scrapeCode360Puppeteer.
  destruct (launch_error s); [reflexivity|].
  destruct (scrape_session s u) as [[stats|e] tr];
    simpl; rewrite ?app_nil_r; reflexivity.
Qed.

Lemma scrapeCode360_trace s u :
  Scr.trace (scrapeCode360 s u)
  = Scr.trace (scrapeCode360Puppeteer s u) ++
    match Scr.result (scrapeCode360Puppeteer s u) with
    | Ok stats =>
        if no_statistics stats
        then [Console WarnLevel (no_statistics_warning u)] else []
    | Throw e =>
        [Console ErrorLevel
           ("Code360 scraping failed for " +:+ u +:+ ": " +:+ message e)]
    end.
Proof.
  unfold scrapeCode360.
  destruct (scrapeCode360Puppeteer s u) as [[stats|e] tr]; [|reflexivity].
  simpl. destruct (no_statistics stats); simpl; rewrite ?app_nil_r; reflexivity.
Qed.

Lemma fetches_app a b : fetches (a ++ b) = (fetches a + fetches b)%nat.
Proof. unfold fetches. rewrite List.filter_app, length_app. reflexivity. Qed.

Lemma fetches_none tr : ~ In Launch tr -> fetches tr = 0%nat.
Proof.
  unfold fetches. induction tr as [|ev tr IH]; simpl; [reflexivity|].
  intros H. destruct ev; simpl; try (apply IH; tauto).
  exfalso. apply H. left. reflexivity.
Qed.

(** A fetch launches the browser once, whatever comes of it. *)
Lemma scrapeCode360_fetches s u : fetches (Scr.trace (scrapeCode360 s u)) = 1%nat.
Proof.
  rewrite scrapeCode360_trace, scrapeCode360Puppeteer_trace, fetches_app.
  change (fetches (Launch :: ?l)) with (S (fetches l)).
  assert (H0 : forall l1 l2, fetches l1 = 0%nat -> fetches l2 = 0%nat ->
                             (S (fetches l1) + fetches l2 = 1)%nat) by (intros; lia).
  apply H0.
  - destruct (launch_error s); [reflexivity|].
    destruct (scrape_session_trace s u) as (before & _ & Hl & ->).
    rewrite !fetches_app, (fetches_none _ Hl).
    destruct (Scr.result (scrape_session s u)); reflexivity.
  - destruct (Scr.result (scrapeCode360Puppeteer s u)) as [stats|e];
      [destruct (no_statistics stats)|]; reflexivity.
Qed.





(** The marker test is case-sensitive. *)
Example marker_case_sensitive :
  Extract.profileExists (Sample.blank_page "profile not found") = true /\
  Extract.profileExists (Sample.blank_page "Profile not found") = false.
Proof. split; reflexivity. Qed.



Lemma all_default_no_statistics stats :
  FetchSpec.all_default stats -> no_statistics stats = true.
Proof.
  unfold FetchSpec.all_default, no_statistics.
  intros (-> & -> & -> & -> & -> & -> & -> & -> & -> & -> & ->). reflexivity.
Qed.

(** C5. When the record the extractor returns has every numeric field
    zero and neither date nor badge, the profile fetcher emits its
    diagnostic warning and still returns that record: it does not
    raise. *)
Theorem C5_all_default_is_success (s : Session) (username : string)
    (stats : Stats.t) :
  Scr.result (scrapeCode360Puppeteer s username) = Ok stats ->
  FetchSpec.all_default stats ->
  Scr.result (scrapeCode360 s username) = Ok stats /\
  In (Console WarnLevel (no_statistics_warning username))
     (Scr.trace (scrapeCode360 s username)).
Proof.
  intros Hr Hd. split.
  - rewrite scrapeCode360_result. exact Hr.
  - rewrite scrapeCode360_trace, Hr, (all_default_no_statistics _ Hd).
    apply in_app_iff. right. left. reflexivity.
Qed.

Lemma C5_all_default_is_success_witness :
  Scr.result (scrapeCode360 (Sample.session (Sample.blank_page "")) "nobody")
  = Ok (FormatSpec.all_default "" "" "") /\
  In (Console WarnLevel (no_statistics_warning "nobody"))
     (Scr.trace (scrapeCode360 (Sample.session (Sample.blank_page "")) "nobody")).
Proof.
  apply (C5_all_default_is_success
           (Sample.session (Sample.blank_page "")) "nobody"
           (FormatSpec.all_default "" "" "")).
  - reflexivity.
  - repeat split; reflexivity.
Defined.

(** ** Escalation of the waits and the statuses of errors *)






(** The answer to an error, read off its message. *)
Lemma error_response_by_message e :
  (PageSpec.occurs "timeout" (message e) ->
   error_response e
   = {| status := 408;
        body := JObject [("error", JString "Request timeout - Code360 profile took too long to load or element not found.")]%string |}) /\
  (~ PageSpec.occurs "timeout" (message e) ->
   PageSpec.occurs "not found" (message e) ->
   error_response e
   = {| status := 404;
        body := JObject [("error", JString "Code360 profile not found")]%string |}) /\
  (~ PageSpec.occurs "timeout" (message e) ->
   ~ PageSpec.occurs "not found" (message e) ->
   error_response e
   = {| status := 500;
        body := JObject [("status", JString "error");
                         ("message", JString "Failed to scrape Code360 profile");
                         ("details", JString (message e))]%string |}).
Proof.
  unfold PageSpec.occurs, error_response. rewrite <- !includes_spec.
  destruct (Str.includes (message e) "timeout");
    destruct (Str.includes (message e) "not found");
    repeat split; intros; try reflexivity; try congruence; exfalso; auto.
Qed.

Lemma no_escalation_result s :
  Observe.no_escalation s -> Scr.result (wait_for_content s) = Ok tt.
Proof.
  unfold Observe.no_escalation. rewrite wait_for_content_result.
  unfold PageSpec.escalation.
  destruct (wait_problems_error s) as [m|]; [intros ->; reflexivity|].
  destruct (wait_streak_error s) as [m|]; [intros ->; reflexivity|reflexivity].
Qed.

Lemma no_escalation_outcome s u :
  Observe.no_escalation s ->
  Scr.result (scrapeCode360 s u)
  = Scr.result (scrapeCode360 (Observe.waits_resolved s) u).
Proof.
  intros Hn.
  rewrite !scrapeCode360_result, !scrapeCode360Puppeteer_result,
    !scrape_session_result, (no_escalation_result s Hn).
  reflexivity.
Qed.

(** ** The profile endpoint and its cache *)

Lemma get_missing_username rq username w :
  string_falsy username = true ->
  get_code360 rq username w = (Ok EndpointSpec.bad_request, w).
Proof.
  unfold get_code360, Eff.try_catch.
  destruct username as [u|]; simpl; [intros ->|]; reflexivity.
Qed.

Lemma get_hit rq u w entry :
  Str.is_empty u = false ->
  fresh (now_lookup rq) (cache w !! cacheKey u) = Some entry ->
  get_code360 rq (Some u) w
  = (Ok (res_json (data entry)),
     {| cache := cache w;
        journal := journal w ++
          [CacheGet (cacheKey u);
           Console LogLevel ("Returning cached data for Code360 user: " +:+ u)] |}).
Proof.
  intros Hu Hf. unfold get_code360, Eff.try_catch, Eff.bind, Eff.cache_get.
  rewrite Hu. cbn [cache journal]. rewrite Hf.
  unfold Eff.log, Eff.lift, Eff.ret. simpl. rewrite <- app_assoc. reflexivity.
Qed.

Lemma get_miss rq u w :
  Str.is_empty u = false ->
  fresh (now_lookup rq) (cache w !! cacheKey u) = None ->
  let fetch := scrapeCode360 (session_at rq (profileUrl u)) u in
  let started :=
    journal w ++
      [CacheGet (cacheKey u);
       Console LogLevel ("Scraping fresh Code360 data for: " +:+ u)] ++
      Scr.trace fetch in
  get_code360 rq (Some u) w
  = match Scr.result fetch with
    | Ok stats =>
        (Ok (res_json (format_response u stats)),
         {| cache := <[cacheKey u :=
                        {| data := format_response u stats;
                           timestamp := now_store rq |}]> (cache w);
            journal := started ++ [CacheSet (cacheKey u)] |})
    | Throw e =>
        (Ok (error_response e),
         {| cache := cache w;
            journal := started ++
              [Console ErrorLevel ("Code360 API error: " +:+ message e)] |})
    end.
Proof.
  intros Hu Hf. unfold get_code360, Eff.try_catch, Eff.bind, Eff.cache_get.
  rewrite Hu. cbn [cache journal]. rewrite Hf.
  unfold Eff.log, Eff.lift, Eff.ret, Eff.cache_set, format_response.
  destruct (scrapeCode360 (session_at rq (profileUrl u)) u) as [[stats|e] tr];
    cbn [Scr.result Scr.trace fst snd cache journal console Scr.emit];
    rewrite <- !app_assoc; reflexivity.
Qed.

Lemma nonempty_not_empty u : u <> EmptyString -> Str.is_empty u = false.
Proof. destruct u; [contradiction | reflexivity]. Qed.

Lemma fresh_later now now' c :
  fresh now c = None -> now <= now' -> fresh now' c = None.
Proof.
  unfold fresh. destruct c as [entry|]; [|reflexivity].
  destruct (Z.ltb_spec (now - timestamp entry) CACHE_DURATION); [discriminate|].
  intros _ Hle.
  destruct (Z.ltb_spec (now' - timestamp entry) CACHE_DURATION); [lia | reflexivity].
Qed.

Lemma get_miss_fetched rq u w :
  u <> EmptyString ->
  EndpointSpec.miss (now_lookup rq) u w ->
  EndpointSpec.fetched w (EndpointSpec.get rq (Some u) w).
Proof.
  intros Hu Hm. unfold EndpointSpec.fetched, EndpointSpec.after, EndpointSpec.get.
  rewrite (get_miss rq u w (nonempty_not_empty u Hu) Hm).
  destruct (Scr.result _); cbn [snd journal];
    rewrite !fetches_app, scrapeCode360_fetches; unfold fetches; simpl; lia.
Qed.

Lemma cacheKey_inj u v : cacheKey u = cacheKey v -> u = v.
Proof. unfold cacheKey. simpl. intros H. injection H. auto. Qed.

(** C7. Results are cached under "code360_" followed by the username
    as given (two usernames share a key only if they are equal, case
    included), for 600 seconds. After a GET that fetched and succeeded, a
    second GET for the same username less than 600 seconds after the
    entry was stored returns the same response, starts no fetch and
    leaves the cache as it is; a GET 600 seconds or more after the entry
    was stored is not served from it and fetches again. POST /cache/clear
    empties the cache and confirms, and a GET that follows it fetches
    again. *)
Theorem C7_cache_contract :
  (forall u, cacheKey u = "code360_" +:+ u) /\
  (forall u v, cacheKey u = cacheKey v -> u = v) /\
  cacheKey "Codushan" <> cacheKey "codushan" /\
  CACHE_DURATION = EndpointSpec.TTL_seconds * 1000 /\
  (forall rq1 rq2 u w,
     u <> EmptyString ->
     EndpointSpec.miss (now_lookup rq1) u w ->
     EndpointSpec.fetch_succeeds rq1 u ->
     now_lookup rq2 - now_store rq1 < EndpointSpec.TTL_seconds * 1000 ->
     let first := EndpointSpec.get rq1 (Some u) w in
     let second := EndpointSpec.get rq2 (Some u) (EndpointSpec.after first) in
     EndpointSpec.fetched w first /\
     (exists r,
        status r = 200 /\
        EndpointSpec.responds first r /\
        cache (EndpointSpec.after first) !! cacheKey u
          = Some {| data := body r; timestamp := now_store rq1 |} /\
        EndpointSpec.responds second r) /\
     EndpointSpec.not_fetched (EndpointSpec.after first) second /\
     cache (EndpointSpec.after second) = cache (EndpointSpec.after first)) /\
  (forall rq1 rq2 u w,
     u <> EmptyString ->
     EndpointSpec.miss (now_lookup rq1) u w ->
     EndpointSpec.fetch_succeeds rq1 u ->
     EndpointSpec.TTL_seconds * 1000 <= now_lookup rq2 - now_store rq1 ->
     let first := EndpointSpec.get rq1 (Some u) w in
     let second := EndpointSpec.get rq2 (Some u) (EndpointSpec.after first) in
     EndpointSpec.fetched (EndpointSpec.after first) second /\
     (forall stats,
        Scr.result (scrapeCode360 (session_at rq2 (profileUrl u)) u) = Ok stats ->
        EndpointSpec.responds second (res_json (format_response u stats)) /\
        cache (EndpointSpec.after second) !! cacheKey u
        = Some {| data := format_response u stats; timestamp := now_store rq2 |}) /\
     (forall e,
        EndpointSpec.fetch_throws rq2 u e ->
        EndpointSpec.responds second (error_response e))) /\
  (forall w rq u,
     u <> EmptyString ->
     let clear := post_cache_clear w in
     fst clear = Ok EndpointSpec.cleared /\
     cache (snd clear) = ∅ /\
     EndpointSpec.fetched (snd clear) (EndpointSpec.get rq (Some u) (snd clear))).
Proof.
  split; [reflexivity|]. split; [apply cacheKey_inj|].
  split; [discriminate|]. split; [reflexivity|]. split; [|split].
  - intros rq1 rq2 u w Hu Hm [stats Hs] Httl first second.
    pose proof (nonempty_not_empty u Hu) as Hu'.
    split; [apply get_miss_fetched; assumption|].
    subst second first. unfold EndpointSpec.get.
    rewrite (get_miss rq1 u w Hu' Hm), Hs.
    unfold EndpointSpec.responds, EndpointSpec.not_fetched.
    unfold EndpointSpec.after. cbn [fst snd].
    set (entry := {| data := format_response u stats; timestamp := now_store rq1 |}).
    set (w1 := {| cache := <[cacheKey u := entry]> (cache w); journal := _ |}).
    assert (Hf : fresh (now_lookup rq2) (cache w1 !! cacheKey u) = Some entry).
    { subst w1. cbn [cache]. rewrite lookup_insert_eq. unfold fresh.
      cbn [timestamp entry].
      replace (now_lookup rq2 - now_store rq1 <? CACHE_DURATION) with true;
        [reflexivity|].
      symmetry. apply Z.ltb_lt. exact Httl. }
    rewrite (get_hit rq2 u w1 entry Hu' Hf). cbn [fst snd cache journal].
    split; [|split; [|reflexivity]].
    + exists (res_json (format_response u stats)).
      split; [reflexivity|]. split; [reflexivity|].
      split; [subst w1; cbn [cache]; apply lookup_insert_eq | reflexivity].
    + subst w1. cbn [journal]. rewrite (fetches_app _ [_; _]).
      unfold fetches. simpl. lia.
  - intros rq1 rq2 u w Hu Hm [stats Hs] Httl first second.
    pose proof (nonempty_not_empty u Hu) as Hu'.
    assert (Hstale : EndpointSpec.miss (now_lookup rq2) u (EndpointSpec.after first)).
    { subst first. unfold EndpointSpec.get, EndpointSpec.after, EndpointSpec.miss.
      rewrite (get_miss rq1 u w Hu' Hm), Hs. cbn [snd cache].
      rewrite lookup_insert_eq. unfold fresh. cbn [timestamp].
      destruct (Z.ltb_spec (now_lookup rq2 - now_store rq1) CACHE_DURATION) as [Hlt|_];
        [|reflexivity].
      exfalso. revert Httl Hlt. unfold CACHE_DURATION, EndpointSpec.TTL_seconds. lia. }
    subst second. generalize dependent (EndpointSpec.after first).
    clear first. intros w1 Hstale.
    split; [apply get_miss_fetched; assumption|]. split.
    + intros stats2 Hs2.
      unfold EndpointSpec.get, EndpointSpec.responds, EndpointSpec.after.
      rewrite (get_miss rq2 u w1 Hu' Hstale), Hs2.
      split; [reflexivity|]. cbn [snd cache]. apply lookup_insert_eq.
    + intros e He. unfold EndpointSpec.get, EndpointSpec.responds.
      unfold EndpointSpec.fetch_throws in He.
      rewrite (get_miss rq2 u w1 Hu' Hstale), He. reflexivity.
  - intros w rq u Hu clear. subst clear.
    split; [reflexivity|]. split; [reflexivity|].
    apply get_miss_fetched; [exact Hu|].
    unfold EndpointSpec.miss. simpl. rewrite lookup_empty. reflexivity.
Qed.

Lemma get_miss_throw rq u w e :
  u <> EmptyString ->
  EndpointSpec.miss (now_lookup rq) u w ->
  EndpointSpec.fetch_throws rq u e ->
  EndpointSpec.responds (EndpointSpec.get rq (Some u) w) (error_response e) /\
  cache (EndpointSpec.after (EndpointSpec.get rq (Some u) w)) = cache w.
Proof.
  intros Hu Hm He. unfold EndpointSpec.get, EndpointSpec.fetch_throws in *.
  rewrite (get_miss rq u w (nonempty_not_empty u Hu) Hm), He.
  split; reflexivity.
Qed.

Lemma error_response_statuses e : In (status (error_response e)) [408; 404; 500].
Proof.
  unfold error_response.
  destruct (Str.includes (message e) "timeout");
    [|destruct (Str.includes (message e) "not found")]; simpl; auto.
Qed.

(** Whatever the request, the cache either stays as it is or gains the
    response of a fetch that returned. *)
Lemma get_cache_written rq username w :
  cache (EndpointSpec.after (EndpointSpec.get rq username w)) = cache w \/
  exists u stats,
    username = Some u /\
    Scr.result (scrapeCode360 (session_at rq (profileUrl u)) u) = Ok stats /\
    EndpointSpec.responds (EndpointSpec.get rq username w)
      (res_json (format_response u stats)) /\
    cache (EndpointSpec.after (EndpointSpec.get rq username w))
    = <[cacheKey u := {| data := format_response u stats;
                         timestamp := now_store rq |}]> (cache w).
Proof.
  unfold EndpointSpec.get, EndpointSpec.after, EndpointSpec.responds.
  destruct (string_falsy username) eqn:Ef.
  - left. rewrite get_missing_username by exact Ef. reflexivity.
  - destruct username as [u|]; [|discriminate]. simpl in Ef.
    destruct (fresh (now_lookup rq) (cache w !! cacheKey u)) as [entry|] eqn:Eh.
    + left. rewrite (get_hit rq u w entry Ef Eh). reflexivity.
    + rewrite (get_miss rq u w Ef Eh).
      destruct (Scr.result _) as [stats|e] eqn:Er; [right | left; reflexivity].
      exists u, stats. auto.
Qed.

(** The handler always answers: its [catch] turns every error into a
    response. *)
Lemma get_code360_answers rq username w :
  exists r, EndpointSpec.responds (EndpointSpec.get rq username w) r.
Proof.
  unfold EndpointSpec.get, EndpointSpec.responds.
  destruct (string_falsy username) eqn:Ef.
  - rewrite get_missing_username by exact Ef. eauto.
  - destruct username as [u|]; [|discriminate]. simpl in Ef.
    destruct (fresh (now_lookup rq) (cache w !! cacheKey u)) as [entry|] eqn:Eh.
    + rewrite (get_hit rq u w entry Ef Eh). eauto.
    + rewrite (get_miss rq u w Ef Eh). destruct (Scr.result _); eauto.
Qed.

(** C10. The cache is written only by a request whose fetch returned.
    When the fetch of a request throws, the endpoint answers with the
    error response (408, 404 or 500) and the cache is exactly what it
    was, so that a later request for the same username fetches again. *)
Theorem C10_failed_fetch_not_cached :
  (forall rq username w,
     cache (EndpointSpec.after (EndpointSpec.get rq username w)) <> cache w ->
     exists u, username = Some u /\ EndpointSpec.fetch_succeeds rq u) /\
  (forall rq u w e,
     u <> EmptyString ->
     EndpointSpec.miss (now_lookup rq) u w ->
     EndpointSpec.fetch_throws rq u e ->
     let run := EndpointSpec.get rq (Some u) w in
     EndpointSpec.responds run (error_response e) /\
     In (status (error_response e)) [408; 404; 500] /\
     cache (EndpointSpec.after run) = cache w /\
     forall rq',
       now_lookup rq <= now_lookup rq' ->
       EndpointSpec.fetched (EndpointSpec.after run)
         (EndpointSpec.get rq' (Some u) (EndpointSpec.after run))).
Proof.
  split.
  - intros rq username w Hne.
    destruct (get_cache_written rq username w) as [H|(u & stats & -> & Hs & _)];
      [contradiction|].
    exists u. split; [reflexivity|]. exists stats. exact Hs.
  - intros rq u w e Hu Hm He run. subst run.
    destruct (get_miss_throw rq u w e Hu Hm He) as [Hr Hc].
    split; [exact Hr|]. split; [apply error_response_statuses|].
    split; [exact Hc|].
    intros rq' Hle. apply get_miss_fetched; [exact Hu|].
    unfold EndpointSpec.miss in *. rewrite Hc.
    apply (fresh_later _ _ _ Hm Hle).
Qed.




Lemma C7_cache_contract_witness :
  let rq1 := Sample.request 1000 (Sample.session Sample.codushan) in
  let rq2 := Sample.request 60000 (Sample.session Sample.codushan) in
  let rq3 := Sample.request 604000 (Sample.session Sample.codushan) in
  let first := EndpointSpec.get rq1 (Some "Codushan"%string) Sample.empty_world in
  let second := EndpointSpec.get rq2 (Some "Codushan"%string) (EndpointSpec.after first) in
  let late := EndpointSpec.get rq3 (Some "Codushan"%string) (EndpointSpec.after first) in
  EndpointSpec.fetched Sample.empty_world first /\
  EndpointSpec.not_fetched (EndpointSpec.after first) second /\
  EndpointSpec.fetched (EndpointSpec.after first) late /\
  EndpointSpec.fetched (snd (post_cache_clear (EndpointSpec.after second)))
    (EndpointSpec.get rq2 (Some "Codushan"%string)
       (snd (post_cache_clear (EndpointSpec.after second)))).
Proof.
  intros rq1 rq2 rq3 first second late.
  destruct C7_cache_contract as (_ & _ & _ & _ & Htwice & Hlate & Hclear).
  destruct (Htwice rq1 rq2 "Codushan"%string Sample.empty_world)
    as (Hfirst & _ & Hsecond & _).
  - discriminate.
  - reflexivity.
  - eexists. vm_compute. reflexivity.
  - vm_compute. reflexivity.
  - destruct (Hlate rq1 rq3 "Codushan"%string Sample.empty_world)
      as (Hthird & _).
    + discriminate.
    + reflexivity.
    + eexists. vm_compute. reflexivity.
    + vm_compute. discriminate.
    + split; [exact Hfirst|]. split; [exact Hsecond|]. split; [exact Hthird|].
      apply (Hclear (EndpointSpec.after second) rq2 "Codushan"%string).
      discriminate.
Defined.

Lemma C10_failed_fetch_not_cached_witness :
  let m := "waiting for selector `.current-and-longest-text-container` failed: timeout 10000ms exceeded"%string in
  let s := Sample.session_without_streak m Sample.codushan in
  let rq := Sample.request 0 s in
  let run := EndpointSpec.get rq (Some "Codushan"%string) Sample.empty_world in
  status (error_response (Error ("Page element not found or timed out: " +:+ m))) = 408 /\
  EndpointSpec.responds run
    (error_response (Error ("Page element not found or timed out: " +:+ m))) /\
  cache (EndpointSpec.after run) = cache Sample.empty_world /\
  EndpointSpec.fetched (EndpointSpec.after run)
    (EndpointSpec.get (Sample.request 5000 s) (Some "Codushan"%string)
       (EndpointSpec.after run)).
Proof.
  intros m s rq run.
  destruct C10_failed_fetch_not_cached as (_ & H).
  destruct (H rq "Codushan"%string Sample.empty_world
              (Error ("Page element not found or timed out: " +:+ m)))
    as (Hr & _ & Hc & Hnext).
  - discriminate.
  - reflexivity.
  - reflexivity.
  - split; [reflexivity|]. split; [exact Hr|]. split; [exact Hc|].
    apply Hnext. vm_compute. discriminate.
Defined.

(** * Further properties of the code *)

(** ** The browser session *)

Ltac timeout_cases :=
  match goal with
  | |- context [Str.includes ?m "timeout"] => destruct (Str.includes m "timeout")
  end.

Ltac session_cases s :=
  destruct (launch_error s) as [?m|]; [try reflexivity|];
  destruct (goto_error s) as [?m|]; [try reflexivity|];
  (destruct (wait_problems_error s) as [?m|];
   [cbn; timeout_cases
   |destruct (wait_streak_error s) as [?m|];
    [cbn; timeout_cases|destruct (wait_xp_error s)]]);
  try reflexivity.

(** With a browser that rejects none of the further calls, the general
    fetcher is [scrapeCode360]. *)
Lemma healthy_scrapeCode360 s u :
  Faulty.scrapeCode360 Faulty.healthy s u = scrapeCode360 s u.
Proof.
  unfold Faulty.scrapeCode360, scrapeCode360,
    Faulty.scrapeCode360Puppeteer, scrapeCode360Puppeteer,
    Faulty.scrape_session, scrape_session, wait_for_content, browser_call, console.
  cbn [Faulty.new_page_error Faulty.user_agent_error Faulty.viewport_error
         Faulty.headers_error Faulty.exists_script_error
         Faulty.stats_script_error Faulty.close_error
         Faulty.cleanup_close_error Faulty.healthy].
  session_cases s;
    cbn; destruct (Extract.profileExists (document s)); cbn; try reflexivity;
    destruct (no_statistics _); reflexivity.
Qed.

Lemma faulty_puppeteer_result f s u :
  Scr.result (Faulty.scrapeCode360Puppeteer f s u)
  = match launch_error s with
    | Some m => Throw (Error m)
    | None =>
        match Scr.result (Faulty.scrape_session f s u) with
        | Ok stats => Ok stats
        | Throw e => Throw (Faulty.after_cleanup f e)
        end
    end.
Proof.
  unfold Faulty.scrapeCode360Puppeteer, Faulty.after_cleanup, browser_call.
  destruct (launch_error s); [reflexivity|].
  destruct (Faulty.scrape_session f s u) as [[stats|e] tr]; [reflexivity|].
  destruct (Faulty.cleanup_close_error f); reflexivity.
Qed.

Lemma faulty_puppeteer_trace f s u :
  exists tail,
    Observe.closes tail = 0%nat /\
    Observe.page_work tail = false /\
    Scr.trace (Faulty.scrapeCode360Puppeteer f s u)
    = Launch ::
      match launch_error s with
      | Some _ => tail
      | None =>
          Scr.trace (Faulty.scrape_session f s u) ++
          match Scr.result (Faulty.scrape_session f s u) with
          | Ok _ => []
          | Throw _ => CloseBrowser :: tail
          end
      end.
Proof.
  unfold Faulty.scrapeCode360Puppeteer, browser_call.
  destruct (launch_error s);
    [eexists; split; [|split; [|reflexivity]]; reflexivity|].
  destruct (Faulty.scrape_session f s u) as [[stats|e] tr].
  - exists []. split; [reflexivity|]. split; [reflexivity|].
    cbn. rewrite app_nil_r. reflexivity.
  - destruct (Faulty.cleanup_close_error f);
      eexists; (split; [|split; [|reflexivity]]); reflexivity.
Qed.

Lemma faulty_result f s u :
  Scr.result (Faulty.scrapeCode360 f s u)
  = Scr.result (Faulty.scrapeCode360Puppeteer f s u).
Proof.
  unfold Faulty.scrapeCode360.
  destruct (Faulty.scrapeCode360Puppeteer f s u) as [[stats|e] tr]; [|reflexivity].
  simpl. destruct (no_statistics stats); reflexivity.
Qed.

Lemma faulty_trace f s u :
  exists tail,
    Observe.closes tail = 0%nat /\
    Observe.page_work tail = false /\
    Scr.trace (Faulty.scrapeCode360 f s u)
    = Scr.trace (Faulty.scrapeCode360Puppeteer f s u) ++ tail.
Proof.
  unfold Faulty.scrapeCode360.
  destruct (Faulty.scrapeCode360Puppeteer f s u) as [[stats|e] tr].
  - simpl. destruct (no_statistics stats); eexists;
      (split; [|split; [|reflexivity]]); reflexivity.
  - eexists. split; [|split; [|reflexivity]]; reflexivity.
Qed.





Example close_rejected_closed_twice :
  let f := {| Faulty.new_page_error := None; Faulty.user_agent_error := None;
              Faulty.viewport_error := None; Faulty.headers_error := None;
              Faulty.exists_script_error := None; Faulty.stats_script_error := None;
              Faulty.close_error := Some "Protocol error: Connection closed"%string;
              Faulty.cleanup_close_error := Some "Protocol error: Connection closed"%string |} in
  Observe.closes
    (Scr.trace (Faulty.scrapeCode360 f (Sample.session Sample.codushan) "Codushan"))
  = 2%nat /\
  Scr.result (Faulty.scrapeCode360 f (Sample.session Sample.codushan) "Codushan")
  = Throw (Error "Protocol error: Connection closed").
Proof. split; reflexivity. Qed.

Lemma faulty_goto_throws f s u m :
  Faulty.page_ready f -> goto_error s = Some m ->
  Scr.result (Faulty.scrape_session f s u) = Throw (Error m) /\
  Observe.page_work (Scr.trace (Faulty.scrape_session f s u)) = false.
Proof.
  intros (H1 & H2 & H3 & H4) Hg.
  unfold Faulty.scrape_session, browser_call, console.
  rewrite H1, H2, H3, H4, Hg. split; reflexivity.
Qed.

Lemma page_work_app a b :
  Observe.page_work (a ++ b) = Observe.page_work a || Observe.page_work b.
Proof. apply existsb_app. Qed.

(** X2. A launch error reaches the caller of the fetcher as it is, and
    nothing is closed. An error thrown inside the session reaches the
    caller as it is when the close of the [catch] (line 260) resolves;
    when that close rejects, its error is thrown instead and the error
    caught is lost. So it is for a failed navigation, after which no wait
    for a selector and no script is run. *)
Theorem X2_error_after_cleanup (f : Faulty.Faults) (s : Session)
    (username : string) :
  (forall m,
     launch_error s = Some m ->
     Scr.result (Faulty.scrapeCode360 f s username) = Throw (Error m)) /\
  (forall e,
     launch_error s = None ->
     Scr.result (Faulty.scrape_session f s username) = Throw e ->
     Scr.result (Faulty.scrapeCode360 f s username)
     = Throw (Faulty.after_cleanup f e)) /\
  (forall m,
     launch_error s = None -> Faulty.page_ready f -> goto_error s = Some m ->
     Scr.result (Faulty.scrapeCode360 f s username)
     = Throw (Faulty.after_cleanup f (Error m)) /\
     Observe.page_work (Scr.trace (Faulty.scrapeCode360 f s username)) = false).
Proof.
  split; [|split].
  - intros m Hl. rewrite faulty_result, faulty_puppeteer_result, Hl. reflexivity.
  - intros e Hl He. rewrite faulty_result, faulty_puppeteer_result, Hl, He.
    reflexivity.
  - intros m Hl Hr Hg.
    destruct (faulty_goto_throws f s username m Hr Hg) as [He Hw].
    split.
    + rewrite faulty_result, faulty_puppeteer_result, Hl, He. reflexivity.
    + destruct (faulty_trace f s username) as (t1 & _ & Ht1 & ->).
      destruct (faulty_puppeteer_trace f s username) as (t2 & _ & Ht2 & ->).
      rewrite page_work_app, Ht1, orb_false_r, Hl, He.
      change (Observe.page_work (Launch :: ?l)) with (Observe.page_work l).
      rewrite page_work_app, Hw.
      change (Observe.page_work (CloseBrowser :: ?l)) with (Observe.page_work l).
      exact Ht2.
Qed.

Lemma X2_error_after_cleanup_witness :
  let f := {| Faulty.new_page_error := None; Faulty.user_agent_error := None;
              Faulty.viewport_error := None; Faulty.headers_error := None;
              Faulty.exists_script_error := None; Faulty.stats_script_error := None;
              Faulty.close_error := None;
              Faulty.cleanup_close_error := Some "Protocol error: Connection closed"%string |} in
  let s := {| launch_error := None;
              goto_error := Some "Navigation timeout of 45000 ms exceeded"%string;
              wait_problems_error := None; wait_streak_error := None;
              wait_xp_error := None; document := Sample.codushan |} in
  Scr.result (Faulty.scrapeCode360 f s "Codushan")
  = Throw (Error "Protocol error: Connection closed") /\
  Scr.result (Faulty.scrapeCode360 Faulty.healthy s "Codushan")
  = Throw (Error "Navigation timeout of 45000 ms exceeded").
Proof.
  intros f s. split.
  - apply (proj2 (proj2 (X2_error_after_cleanup f s "Codushan"))
             "Navigation timeout of 45000 ms exceeded"%string).
    + reflexivity.
    + repeat split; reflexivity.
    + reflexivity.
  - apply (proj2 (proj2 (X2_error_after_cleanup Faulty.healthy s "Codushan"))
             "Navigation timeout of 45000 ms exceeded"%string).
    + reflexivity.
    + repeat split; reflexivity.
    + reflexivity.
Defined.

(** X3. A mandatory wait that rejects with an error whose message does
    not hold "timeout" does not fail the fetch: the outcome is that of
    the same session with every wait resolving. When it is the wait for
    the statistics container that rejects, the waits for the streak
    container and for the experience points are not started. *)
Theorem X3_other_wait_failures_passed_over (s : Session) (username : string) :
  Observe.no_escalation s ->
  Scr.result (scrapeCode360 s username)
  = Scr.result (scrapeCode360 (Observe.waits_resolved s) username) /\
  (wait_problems_error s <> None ->
   Observe.later_waits (Scr.trace (scrapeCode360 s username)) = false).
Proof.
  intros Hn. split.
  - apply no_escalation_outcome, Hn.
  - intros Hw. clear Hn.
    unfold scrapeCode360, scrapeCode360Puppeteer, scrape_session,
      wait_for_content, browser_call, console.
    destruct (launch_error s); [reflexivity|].
    destruct (goto_error s); [reflexivity|].
    destruct (wait_problems_error s) as [m|]; [|contradiction].
    cbn. timeout_cases; cbn; [reflexivity|].
    destruct (Extract.profileExists (document s)); cbn; [|reflexivity].
    destruct (no_statistics _); reflexivity.
Qed.

Lemma X3_other_wait_failures_passed_over_witness :
  let m := "Waiting for selector `.problems-solved` failed: Waiting failed: 20000ms exceeded"%string in
  let s := Sample.session_without_statistics m Sample.codushan in
  Scr.result (scrapeCode360 s "Codushan")
  = Scr.result (scrapeCode360 (Sample.session Sample.codushan) "Codushan") /\
  Observe.later_waits (Scr.trace (scrapeCode360 s "Codushan")) = false.
Proof.
  intros m s.
  destruct (X3_other_wait_failures_passed_over s "Codushan") as [H1 H2].
  - reflexivity.
  - split; [exact H1 | apply H2; discriminate].
Defined.

(** ** Field extraction *)

Lemma take_while_app p ds rest :
  Str.forallb p ds = true -> Str.head_is p rest = false ->
  Str.take_while p (ds +:+ rest) = ds.
Proof.
  intros Hds Hrest. induction ds as [|c ds' IH]; simpl in *.
  - destruct rest as [|x r]; [reflexivity|]. simpl in *. rewrite Hrest. reflexivity.
  - apply andb_true_iff in Hds as [-> Hds]. f_equal. apply IH, Hds.
Qed.

Lemma first_digits_run pre ds rest :
  Str.forallb (fun c => negb (Char.is_digit c)) pre = true ->
  BadgeSpec.nonempty_of Char.is_digit ds ->
  Str.head_is Char.is_digit rest = false ->
  Extract.first_digits (pre +:+ ds +:+ rest) = Some ds.
Proof.
  intros Hpre [Hne Hds] Hrest. unfold Extract.first_digits.
  rewrite drop_while_app by exact Hpre.
  assert (Hhead : Str.head_is (fun c => negb (Char.is_digit c)) (ds +:+ rest) = false).
  { destruct ds as [|c ds']; [contradiction|]. simpl in *.
    apply andb_true_iff in Hds as [-> _]. reflexivity. }
  rewrite drop_while_id by exact Hhead.
  destruct ds as [|c ds']; [contradiction|].
  cbn [String.append Str.is_empty].
  change (String c (ds' +:+ rest)) with (String c ds' +:+ rest).
  rewrite take_while_app by assumption. reflexivity.
Qed.

Lemma first_digits_none text :
  Str.forallb (fun c => negb (Char.is_digit c)) text = true ->
  Extract.first_digits text = None.
Proof.
  intros H. unfold Extract.first_digits.
  replace (Str.drop_while _ text) with EmptyString; [reflexivity|].
  induction text as [|c r IH]; simpl in *; [reflexivity|].
  apply andb_true_iff in H as [-> H]. apply IH, H.
Qed.

Lemma first_digits_digits text m :
  Extract.first_digits text = Some m -> BadgeSpec.nonempty_of Char.is_digit m.
Proof.
  unfold Extract.first_digits.
  pose proof (drop_while_head (fun c => negb (Char.is_digit c)) text) as Hh.
  destruct (Str.drop_while _ text) as [|c r]; simpl; [discriminate|].
  intros H. injection H as <-. simpl in Hh. apply negb_false_iff in Hh.
  simpl. rewrite Hh. split; [discriminate|].
  simpl. rewrite Hh. apply take_while_all.
Qed.

(** X4. The raw total is always a non-empty text of digits. It is the
    first maximal run of digits of the trimmed text of the
    [.problems-solved .total] element: what follows the run, further
    digits included, is ignored; it is "0" when the element is missing or
    its text holds no digit. *)
Theorem X4_total_first_digit_run (d : Document) :
  BadgeSpec.nonempty_of Char.is_digit (Raw.totalSolved (Extract.stats d)) /\
  (forall el pre ds rest,
     total_el d = Some el ->
     Str.trim el = pre +:+ ds +:+ rest ->
     Str.forallb (fun c => negb (Char.is_digit c)) pre = true ->
     BadgeSpec.nonempty_of Char.is_digit ds ->
     Str.head_is Char.is_digit rest = false ->
     Raw.totalSolved (Extract.stats d) = ds) /\
  (forall el,
     total_el d = Some el ->
     Str.forallb (fun c => negb (Char.is_digit c)) (Str.trim el) = true ->
     Raw.totalSolved (Extract.stats d) = "0"%string) /\
  (total_el d = None -> Raw.totalSolved (Extract.stats d) = "0"%string).
Proof.
  cbn [Raw.totalSolved Extract.stats]. unfold Extract.totalSolved.
  split; [|split; [|split]].
  - destruct (total_el d) as [el|]; [|split; [discriminate | reflexivity]].
    destruct (Extract.first_digits (Str.trim el)) as [m|] eqn:E;
      [apply (first_digits_digits _ _ E) | split; [discriminate | reflexivity]].
  - intros el pre ds rest -> -> Hpre Hds Hrest.
    rewrite (first_digits_run pre ds rest Hpre Hds Hrest). reflexivity.
  - intros el -> H. rewrite (first_digits_none _ H). reflexivity.
  - intros ->. reflexivity.
Qed.

Lemma X4_total_first_digit_run_witness :
  Raw.totalSolved (Extract.stats (Observe.page_with_total " Total: 1,234 solved "))
  = "1"%string.
Proof.
  apply (proj1 (proj2 (X4_total_first_digit_run
                         (Observe.page_with_total " Total: 1,234 solved ")))
           " Total: 1,234 solved "%string "Total: "%string "1"%string
           ",234 solved"%string).
  - reflexivity.
  - reflexivity.
  - reflexivity.
  - split; [discriminate | reflexivity].
  - reflexivity.
Defined.

Ltac title_cases :=
  unfold Extract.difficulty_step, Observe.titled;
  match goal with
  | el : Difficulty |- _ =>
      destruct (value_el el) as [v|]; [|reflexivity];
      destruct (title_el el) as [t|]; [|reflexivity]
  end;
  match goal with
  | |- context [Str.toLowerCase ?t] => generalize (Str.toLowerCase t)
  end;
  intros title;
  repeat match goal with
         | |- context [String.eqb title ?name] =>
             destruct (String.eqb_spec title name); [subst; reflexivity|]
         end;
  reflexivity.

Lemma step_easy r el :
  Extract.easy (Extract.difficulty_step r el)
  = match Observe.titled "easy" el with Some v => v | None => Extract.easy r end.
Proof. title_cases. Qed.

Lemma step_moderate r el :
  Extract.moderate (Extract.difficulty_step r el)
  = match Observe.titled "moderate" el with Some v => v | None => Extract.moderate r end.
Proof. title_cases. Qed.

Lemma step_hard r el :
  Extract.hard (Extract.difficulty_step r el)
  = match Observe.titled "hard" el with Some v => v | None => Extract.hard r end.
Proof. title_cases. Qed.

Lemma step_ninja r el :
  Extract.ninja (Extract.difficulty_step r el)
  = match Observe.titled "ninja" el with Some v => v | None => Extract.ninja r end.
Proof. title_cases. Qed.

Section LastWins.

Variable field : Extract.counts -> string.
Variable name : string.
Hypothesis step_field : forall r el,
  field (Extract.difficulty_step r el)
  = match Observe.titled name el with Some v => v | None => field r end.

Lemma fold_last_titled els : forall r,
  field (fold_left Extract.difficulty_step els r)
  = match Observe.last_titled name els with Some v => v | None => field r end.
Proof.
  induction els as [|el rest IH]; intros r; simpl; [reflexivity|].
  rewrite IH. destruct (Observe.last_titled name rest); [reflexivity|].
  apply step_field.
Qed.

End LastWins.

(** X5. Each difficulty counter is read from the last
    [.difficulty-wise .difficulty] element that has a value and whose
    title, trimmed and lower-cased, is the name of the difficulty: a later
    element overrides an earlier one, elements with another title or
    without value or title are skipped, and the counter is "0" when no
    element speaks of it. *)
Theorem X5_difficulty_last_wins (d : Document) :
  Raw.easySolved (Extract.stats d)
    = Observe.or_zero (Observe.last_titled "easy" (difficulty_els d)) /\
  Raw.moderateSolved (Extract.stats d)
    = Observe.or_zero (Observe.last_titled "moderate" (difficulty_els d)) /\
  Raw.hardSolved (Extract.stats d)
    = Observe.or_zero (Observe.last_titled "hard" (difficulty_els d)) /\
  Raw.ninjaSolved (Extract.stats d)
    = Observe.or_zero (Observe.last_titled "ninja" (difficulty_els d)).
Proof.
  cbn [Raw.easySolved Raw.moderateSolved Raw.hardSolved Raw.ninjaSolved
         Extract.stats].
  unfold Extract.difficulties, Observe.or_zero.
  rewrite (fold_last_titled Extract.easy "easy" step_easy),
    (fold_last_titled Extract.moderate "moderate" step_moderate),
    (fold_last_titled Extract.hard "hard" step_hard),
    (fold_last_titled Extract.ninja "ninja" step_ninja).
  repeat split;
    match goal with |- context [Observe.last_titled ?n ?l] =>
      destruct (Observe.last_titled n l) end; reflexivity.
Qed.

Example difficulty_override :
  Raw.easySolved
    (Extract.stats
       (Observe.page_with_difficulties
          [ {| value_el := Some " 50 "%string; title_el := Some "Easy"%string |};
            {| value_el := None; title_el := Some "easy"%string |};
            {| value_el := Some "7"%string; title_el := Some " EASY "%string |};
            {| value_el := Some "9"%string; title_el := Some "Expert"%string |} ]))
  = "7"%string.
Proof. reflexivity. Qed.

(** ** The page content kept for debugging *)

Lemma prefix_length n : forall s,
  String.length (Str.prefix n s) = Nat.min n (String.length s).
Proof.
  induction n as [|n IH]; intros [|c r]; simpl; try reflexivity.
  rewrite IH. reflexivity.
Qed.

Lemma prefix_is_prefix n : forall s, exists rest, s = Str.prefix n s +:+ rest.
Proof.
  induction n as [|n IH]; intros s.
  - exists s. destruct s; reflexivity.
  - destruct s as [|c r]; [exists ""%string; reflexivity|].
    destruct (IH r) as [rest Hr]. exists rest. simpl. f_equal. exact Hr.
Qed.

Lemma prefix_all n : forall s, (String.length s <= n)%nat -> Str.prefix n s = s.
Proof.
  induction n as [|n IH]; intros [|c r] H; simpl in *; try reflexivity; [lia|].
  f_equal. apply IH. lia.
Qed.

(** X6. The [debug] field of the record is the start of the body text,
    at most 1000 characters of it: the whole text when it is no longer
    than that, its first 1000 characters otherwise. *)
Theorem X6_debug_bounded (d : Document) :
  let debug := Stats.debug (normalize (Extract.stats d)) in
  (String.length debug <= 1000)%nat /\
  String.length debug = Nat.min 1000 (String.length (body_text d)) /\
  (exists rest, body_text d = debug +:+ rest) /\
  ((String.length (body_text d) <= 1000)%nat -> debug = body_text d).
Proof.
  cbn [Stats.debug normalize Raw.pageContent Extract.stats]. cbv zeta.
  generalize 1000%nat as n. intros n.
  rewrite prefix_length.
  split; [lia|]. split; [reflexivity|].
  split; [apply prefix_is_prefix | apply prefix_all].
Qed.

Lemma X6_debug_bounded_witness :
  Stats.debug (normalize (Extract.stats Sample.codushan)) = body_text Sample.codushan.
Proof.
  apply (X6_debug_bounded Sample.codushan). cbn. lia.
Defined.

(** ** Coercion and formatting together *)

Lemma parseNumber_never_falsy_changed text :
  Number.or_else (parseNumber text) (Num 0) = parseNumber text.
Proof.
  destruct text as [s|]; [|reflexivity].
  rewrite parseNumber_closed_form.
  apply of_integer_falsy, digits_value_from_nonneg. lia.
Qed.

(** X7. The default-if-falsy rule of the formatter never changes a
    number the fetcher produced: on a normalized record every numeric
    field of the formatted record is the coerced raw field. *)
Theorem X7_format_keeps_numbers (raw : Raw.t) :
  let core := formatCode360Data (normalize raw) in
  Core.totalSolved core = parseNumber (Some (Raw.totalSolved raw)) /\
  Core.easySolved core = parseNumber (Some (Raw.easySolved raw)) /\
  Core.mediumSolved core = parseNumber (Some (Raw.moderateSolved raw)) /\
  Core.hardSolved core = parseNumber (Some (Raw.hardSolved raw)) /\
  Core.ninjaSolved core = parseNumber (Some (Raw.ninjaSolved raw)) /\
  Core.currentStreak core = parseNumber (Some (Raw.currentStreak raw)) /\
  Core.longestStreak core = parseNumber (Some (Raw.longestStreak raw)) /\
  Core.streakFreezeLeft core = parseNumber (Some (Raw.streakFreezeLeft raw)) /\
  Core.expcount core = parseNumber (Some (Raw.expcount raw)).
Proof.
  cbv zeta. unfold formatCode360Data, normalize.
  cbn [Core.totalSolved Core.easySolved Core.mediumSolved Core.hardSolved
         Core.ninjaSolved Core.currentStreak Core.longestStreak
         Core.streakFreezeLeft Core.expcount
         Stats.totalSolved Stats.easySolved Stats.moderateSolved Stats.hardSolved
         Stats.ninjaSolved Stats.currentStreak Stats.longestStreak
         Stats.streakFreezeLeft Stats.expcount].
  repeat split; apply parseNumber_never_falsy_changed.
Qed.

Lemma is_badge_head div :
  Extract.is_badge div = true -> Str.head_is Char.is_digit (Str.trim div) = true.
Proof.
  unfold Extract.is_badge, Extract.leading_number_word. intros H.
  apply andb_true_iff in H as [H _].
  apply andb_true_iff in H as [H _].
  apply andb_true_iff in H as [H _]. exact H.
Qed.

(** X8. A badge that was found starts with a digit, so it is never
    falsy: the formatter passes the extracted badge on as it is, and a
    page without a badge gives null. *)
Theorem X8_badge_reaches_response (d : Document) :
  Core.badge (formatCode360Data (normalize (Extract.stats d))) = Extract.badge d /\
  (forall b, Extract.badge d = Some b -> Str.head_is Char.is_digit b = true).
Proof.
  cbn [Core.badge formatCode360Data Stats.badge normalize Raw.badge Extract.stats].
  assert (H : forall b, Extract.badge d = Some b -> Str.head_is Char.is_digit b = true).
  { unfold Extract.badge. intros b.
    destruct (List.find Extract.is_badge (div_els d)) as [el|] eqn:E; [|discriminate].
    intros Hb. injection Hb as <-.
    apply is_badge_head. apply (List.find_some _ _ E). }
  split; [|exact H].
  destruct (Extract.badge d) as [b|] eqn:E; [|reflexivity].
  specialize (H b eq_refl). destruct b; [discriminate H | reflexivity].
Qed.

Lemma X8_badge_reaches_response_witness :
  Extract.badge Sample.codushan = Some "5 Star Achiever"%string /\
  Str.head_is Char.is_digit "5 Star Achiever" = true.
Proof.
  split; [reflexivity|].
  apply (proj2 (X8_badge_reaches_response Sample.codushan)). reflexivity.
Defined.

Lemma trim_fixed_ends r :
  Str.trim r = r ->
  Str.head_is Char.is_space r = false /\ Str.last_is Char.is_space r = false.
Proof.
  intros H. destruct (trim_trimmed r) as (w1 & w2 & _ & _ & _ & Hh & Hl).
  rewrite H in Hh, Hl. auto.
Qed.

Lemma parseDate_trimmed text r :
  parseDate text = Some r -> Str.trim r = r.
Proof.
  destruct text as [[|c s]|]; try discriminate.
  rewrite parseDate_nonempty. intros H. injection H as <-.
  apply remove_prefix_stripped;
    [apply trimEnd_head, drop_while_head | apply trimEnd_idem].
Qed.

(** X9. The joined date of the formatted record is null or a non-empty
    text with no white space at either end; it is null exactly when the
    coerced date is null or empty (a text that is only the prefix, such
    as "Joined on:", gives null). *)
Theorem X9_joined_date_of_response (raw : Raw.t) :
  let joined := Core.joinedDate (formatCode360Data (normalize raw)) in
  (forall r, joined = Some r ->
     r <> EmptyString /\ parseDate (Raw.joinedDate raw) = Some r /\
     Str.head_is Char.is_space r = false /\ Str.last_is Char.is_space r = false) /\
  (joined = None <->
   parseDate (Raw.joinedDate raw) = None \/
   parseDate (Raw.joinedDate raw) = Some EmptyString).
Proof.
  cbn [Core.joinedDate formatCode360Data Stats.joinedDate normalize]. cbv zeta.
  unfold or_null.
  destruct (parseDate (Raw.joinedDate raw)) as [[|c r']|] eqn:E; simpl.
  - split; [discriminate|]. split; auto.
  - split.
    + intros r H. injection H as <-. split; [discriminate|]. split; [reflexivity|].
      apply trim_fixed_ends, (parseDate_trimmed _ _ E).
    + split; [discriminate | intros [H|H]; discriminate H].
  - split; [discriminate|]. split; auto.
Qed.

Lemma X9_joined_date_of_response_witness :
  "Jan 2022"%string <> EmptyString /\
  parseDate (Raw.joinedDate (Extract.stats Sample.codushan)) = Some "Jan 2022"%string /\
  Str.head_is Char.is_space "Jan 2022" = false /\
  Str.last_is Char.is_space "Jan 2022" = false.
Proof.
  apply (proj1 (X9_joined_date_of_response (Extract.stats Sample.codushan))).
  reflexivity.
Defined.

Example joined_prefix_only :
  parseDate (Some "Joined on:"%string) = Some ""%string /\
  or_null (parseDate (Some "Joined on:"%string)) = None.
Proof. split; reflexivity. Qed.

(** ** White space around a date, characters around digits *)

Lemma drop_while_blank w :
  DateSpec.blank w -> Str.drop_while Char.is_space w = EmptyString.
Proof.
  unfold DateSpec.blank. induction w as [|c r IH]; simpl; [reflexivity|].
  intros H. apply andb_true_iff in H as [-> H]. apply IH, H.
Qed.

Lemma trimEnd_blank w : DateSpec.blank w -> Str.trimEnd w = EmptyString.
Proof.
  unfold DateSpec.blank. induction w as [|c r IH]; simpl; [reflexivity|].
  intros H. apply andb_true_iff in H as [-> H]. rewrite (IH H). reflexivity.
Qed.

Lemma trimEnd_app_blank x w :
  DateSpec.blank w -> Str.trimEnd (x +:+ w) = Str.trimEnd x.
Proof.
  intros Hw. induction x as [|c r IH]; simpl.
  - apply trimEnd_blank, Hw.
  - rewrite IH. reflexivity.
Qed.

Lemma trim_app_blank s w :
  DateSpec.blank w -> Str.trim (s +:+ w) = Str.trim s.
Proof.
  intros Hw. unfold Str.trim, Str.trimStart.
  induction s as [|c r IH]; simpl.
  - rewrite (drop_while_blank w Hw). reflexivity.
  - destruct (Char.is_space c); [exact IH|].
    apply (trimEnd_app_blank (String c r) w Hw).
Qed.

Lemma trim_surrounded w1 s w2 :
  DateSpec.blank w1 -> DateSpec.blank w2 ->
  Str.trim (w1 +:+ s +:+ w2) = Str.trim s.
Proof.
  intros H1 H2. rewrite <- (trim_app_blank s w2 H2).
  unfold Str.trim, Str.trimStart. rewrite drop_while_app by exact H1. reflexivity.
Qed.

(** X10. White space around a date text does not matter: a non-empty
    text and the same text with white space added before and after are
    coerced to the same date. *)
Theorem X10_parseDate_ignores_surrounding_space (w1 s w2 : string) :
  s <> EmptyString -> DateSpec.blank w1 -> DateSpec.blank w2 ->
  parseDate (Some (w1 +:+ s +:+ w2)) = parseDate (Some s).
Proof.
  intros Hs H1 H2.
  destruct s as [|c r]; [contradiction|].
  assert (Hne : exists c' r', w1 +:+ String c r +:+ w2 = String c' r').
  { destruct w1 as [|x w1']; simpl; eauto. }
  destruct Hne as (c' & r' & Hne).
  rewrite parseDate_nonempty.
  rewrite Hne, parseDate_nonempty, <- Hne.
  rewrite (trim_surrounded w1 (String c r) w2 H1 H2). reflexivity.
Qed.

Lemma X10_parseDate_ignores_surrounding_space_witness :
  parseDate (Some (" " +:+ "Member since: 2020" +:+ "  "))
  = parseDate (Some "Member since: 2020"%string).
Proof.
  apply (X10_parseDate_ignores_surrounding_space " " "Member since: 2020" "  ").
  - discriminate.
  - reflexivity.
  - reflexivity.
Defined.

Lemma digits_value_filter s : forall acc,
  Coerce.digits_value_from acc (Str.filter Char.is_digit s)
  = Coerce.digits_value_from acc s.
Proof.
  induction s as [|c r IH]; intros acc; simpl; [reflexivity|].
  destruct (Char.is_digit c) eqn:E; simpl; [rewrite E|]; apply IH.
Qed.

(** X11. The number a text is coerced to depends on its digit
    characters only: two texts with the same digits in the same order
    give the same number, whatever stands between, before or after the
    digits; and zeros in front of the digits change nothing. *)
Theorem X11_parseNumber_digits_only (s t : string) :
  (Str.filter Char.is_digit s = Str.filter Char.is_digit t ->
   parseNumber (Some s) = parseNumber (Some t)) /\
  parseNumber (Some ("0" +:+ s)) = parseNumber (Some s).
Proof.
  split.
  - intros H. rewrite !parseNumber_closed_form. unfold Coerce.digits_value.
    rewrite <- (digits_value_filter s), <- (digits_value_filter t), H.
    reflexivity.
  - rewrite !parseNumber_closed_form. reflexivity.
Qed.

Lemma X11_parseNumber_digits_only_witness :
  parseNumber (Some "-1,2 3 4 XP"%string) = parseNumber (Some "1234"%string).
Proof.
  exact (proj1 (X11_parseNumber_digits_only "-1,2 3 4 XP" "1234") eq_refl).
Defined.

(** ** The endpoints and the cache *)

(** X12. A request to the profile endpoint never touches the cache
    entry of another username: whatever the request and its outcome, the
    entry under the key of any username other than the requested one is
    what it was. *)
Theorem X12_cache_entries_isolated (rq : Request) (username : option string)
    (w : World) (v : string) :
  username <> Some v ->
  cache (EndpointSpec.after (EndpointSpec.get rq username w)) !! cacheKey v
  = cache w !! cacheKey v.
Proof.
  intros Hne.
  destruct (get_cache_written rq username w) as [->|(u & stats & -> & _ & _ & ->)];
    [reflexivity|].
  apply lookup_insert_ne. intros H. apply cacheKey_inj in H. congruence.
Qed.

Lemma X12_cache_entries_isolated_witness :
  let rq := Sample.request 0 (Sample.session Sample.codushan) in
  cache (EndpointSpec.after
           (EndpointSpec.get rq (Some "Codushan"%string) Sample.empty_world))
    !! cacheKey "codushan"
  = cache Sample.empty_world !! cacheKey "codushan".
Proof.
  intros rq.
  apply (X12_cache_entries_isolated rq (Some "Codushan"%string)
           Sample.empty_world "codushan").
  discriminate.
Defined.

Lemma stale_miss now u w entry :
  cache w !! cacheKey u = Some entry ->
  CACHE_DURATION <= now - timestamp entry ->
  EndpointSpec.miss now u w.
Proof.
  intros He Hs. unfold EndpointSpec.miss, fresh. rewrite He.
  destruct (Z.ltb_spec (now - timestamp entry) CACHE_DURATION); [lia | reflexivity].
Qed.

(** X13. An entry is stale from 600000 ms after it was stored (the
    bound included). A request that finds a stale entry fetches; when the
    fetch returns, the entry is replaced by the new response with the new
    time stamp; when the fetch throws, the error is answered and the stale
    entry stays in the cache, unserved. *)
Theorem X13_stale_entry_refetched (rq : Request) (u : string) (w : World)
    (entry : CacheEntry) :
  u <> EmptyString ->
  cache w !! cacheKey u = Some entry ->
  600000 <= now_lookup rq - timestamp entry ->
  let run := EndpointSpec.get rq (Some u) w in
  EndpointSpec.fetched w run /\
  (forall stats,
     Scr.result (scrapeCode360 (session_at rq (profileUrl u)) u) = Ok stats ->
     EndpointSpec.responds run (res_json (format_response u stats)) /\
     cache (EndpointSpec.after run) !! cacheKey u
     = Some {| data := format_response u stats; timestamp := now_store rq |}) /\
  (forall e,
     EndpointSpec.fetch_throws rq u e ->
     EndpointSpec.responds run (error_response e) /\
     cache (EndpointSpec.after run) !! cacheKey u = Some entry).
Proof.
  intros Hu He Hs run. subst run.
  pose proof (stale_miss (now_lookup rq) u w entry He Hs) as Hm.
  split; [apply get_miss_fetched; assumption|]. split.
  - intros stats Hr. unfold EndpointSpec.get, EndpointSpec.responds, EndpointSpec.after.
    rewrite (get_miss rq u w (nonempty_not_empty u Hu) Hm), Hr.
    split; [reflexivity|]. cbn [snd cache]. apply lookup_insert_eq.
  - intros e Ht. destruct (get_miss_throw rq u w e Hu Hm Ht) as [Hr Hc].
    split; [exact Hr|]. rewrite Hc. exact He.
Qed.

Lemma X13_stale_entry_refetched_witness :
  let old := {| data := JNull; timestamp := 0 |} in
  let w := {| cache := {[ cacheKey "Codushan" := old ]}; journal := [] |} in
  let rq := Sample.request 600000 (Sample.session Sample.codushan) in
  EndpointSpec.fetched w (EndpointSpec.get rq (Some "Codushan"%string) w).
Proof.
  intros old w rq.
  apply (X13_stale_entry_refetched rq "Codushan" w old).
  - discriminate.
  - reflexivity.
  - vm_compute. discriminate.
Defined.

Example entry_still_fresh_just_before :
  let old := {| data := JNull; timestamp := 0 |} in
  let w := {| cache := {[ cacheKey "Codushan" := old ]}; journal := [] |} in
  let rq := Sample.request 599999 (Sample.session Sample.codushan) in
  fst (EndpointSpec.get rq (Some "Codushan"%string) w) = Ok (res_json JNull).
Proof. reflexivity. Qed.

Lemma get_test_codushan_run rq w :
  let fetch := scrapeCode360 (session_at rq (profileUrl "Codushan")) "Codushan" in
  get_test_codushan rq w
  = (match Scr.result fetch with
     | Ok stats => Ok (res_json (testResponse "Codushan" (formatCode360Data stats)))
     | Throw e => Ok (Observe.test_failure e)
     end,
     {| cache := cache w; journal := journal w ++ Scr.trace fetch |}).
Proof.
  cbv zeta. unfold get_test_codushan, Eff.try_catch, Eff.bind, Eff.lift, Eff.ret.
  destruct (scrapeCode360 _ _) as [[stats|e] tr]; reflexivity.
Qed.

(** X14. The test endpoint goes around the cache: it fetches on every
    call, fresh entry or not, and leaves the cache as it is. Whatever
    error the fetch throws (a timeout, a profile not found, anything
    else), the answer is 500 with the message "Failed test scrape" and the
    message of the error as detail. *)
Theorem X14_test_endpoint_bypasses_cache (rq : Request) (w : World) :
  let run := get_test_codushan rq w in
  cache (snd run) = cache w /\
  fetches (journal (snd run)) = S (fetches (journal w)) /\
  (forall e,
     EndpointSpec.fetch_throws rq "Codushan" e ->
     fst run = Ok (Observe.test_failure e)).
Proof.
  cbv zeta. rewrite get_test_codushan_run. cbn [fst snd cache journal].
  split; [reflexivity|]. split.
  - rewrite fetches_app, scrapeCode360_fetches. lia.
  - intros e He. unfold EndpointSpec.fetch_throws in He. rewrite He. reflexivity.
Qed.

Lemma X14_test_endpoint_bypasses_cache_witness :
  let rq := Sample.request 0
              (Sample.session (Sample.blank_page "Profile not found")) in
  fst (get_test_codushan rq Sample.empty_world)
  = Ok (Observe.test_failure ErrorSpec.ProfileNotFound).
Proof.
  intros rq.
  apply (X14_test_endpoint_bypasses_cache rq Sample.empty_world).
  reflexivity.
Defined.

Lemma test_response_fields username core key :
  key <> "message"%string -> key <> "stabilityScore"%string ->
  Json.field key (testResponse username core)
  = Json.field key (finalResponse username core).
Proof.
  intros Hm Hs. unfold testResponse, finalResponse, Json.field.
  repeat (cbn [Json.get];
          match goal with
          | |- context [String.eqb ?k key] =>
              destruct (String.eqb_spec k key);
              [try reflexivity; subst; contradiction|]
          end).
  reflexivity.
Qed.

(** X15. When its fetch returns, the test endpoint answers 200 with the
    fields of the profile endpoint's response for "Codushan" and one more,
    stabilityScore (0), placed after acceptanceRate; every field but
    message ("retrieved (test)") has the value the profile endpoint would
    give it. *)
Theorem X15_test_response_fields (rq : Request) (w : World) (stats : Stats.t) :
  Scr.result (scrapeCode360 (session_at rq (profileUrl "Codushan")) "Codushan")
  = Ok stats ->
  exists b,
    fst (get_test_codushan rq w) = Ok {| status := 200; body := b |} /\
    Json.keys b = Observe.test_fields /\
    Json.field "message" b = Some (JString "retrieved (test)") /\
    Json.field "stabilityScore" b = Some (JNumber (Num 0)) /\
    forall key,
      key <> "message"%string -> key <> "stabilityScore"%string ->
      Json.field key b = Json.field key (format_response "Codushan" stats).
Proof.
  intros Hr. rewrite get_test_codushan_run. cbv zeta. rewrite Hr. cbn [fst].
  eexists. split; [reflexivity|].
  split; [reflexivity|]. split; [reflexivity|]. split; [reflexivity|].
  intros key Hm Hs. apply test_response_fields; assumption.
Qed.

Lemma X15_test_response_fields_witness :
  let rq := Sample.request 0 (Sample.session Sample.codushan) in
  exists b,
    fst (get_test_codushan rq Sample.empty_world) = Ok {| status := 200; body := b |} /\
    Json.field "badge" b = Some (JString "5 Star Achiever").
Proof.
  intros rq.
  destruct (X15_test_response_fields rq Sample.empty_world
              (normalize (Extract.stats Sample.codushan)))
    as (b & Hb & _ & _ & _ & Hk).
  - reflexivity.
  - exists b. split; [exact Hb|]. rewrite Hk by discriminate. reflexivity.
Defined.

(** X17. When [puppeteer.launch] rejects and the cache has no fresh
    entry, the error reaches the handler as it is and the answer is
    decided by its message alone: 408 when it holds "timeout", else 404
    when it holds "not found" (whatever was not found), else 500 with the
    message as detail; and nothing is cached. *)
Theorem X17_launch_error_status (rq : Request) (u m : string) (w : World) :
  u <> EmptyString ->
  EndpointSpec.miss (now_lookup rq) u w ->
  launch_error (session_at rq (profileUrl u)) = Some m ->
  let run := EndpointSpec.get rq (Some u) w in
  EndpointSpec.responds run (error_response (Error m)) /\
  cache (EndpointSpec.after run) = cache w /\
  (PageSpec.occurs "timeout" m -> status (error_response (Error m)) = 408) /\
  (~ PageSpec.occurs "timeout" m -> PageSpec.occurs "not found" m ->
   error_response (Error m)
   = {| status := 404;
        body := JObject [("error", JString "Code360 profile not found")]%string |}) /\
  (~ PageSpec.occurs "timeout" m -> ~ PageSpec.occurs "not found" m ->
   error_response (Error m)
   = {| status := 500;
        body := JObject [("status", JString "error");
                         ("message", JString "Failed to scrape Code360 profile");
                         ("details", JString m)]%string |}).
Proof.
  intros Hu Hm He run. subst run.
  assert (Hr : EndpointSpec.fetch_throws rq u (Error m)).
  { unfold EndpointSpec.fetch_throws.
    rewrite scrapeCode360_result, scrapeCode360Puppeteer_result, He. reflexivity. }
  destruct (get_miss_throw rq u w _ Hu Hm Hr) as [H1 H2].
  split; [exact H1|]. split; [exact H2|].
  destruct (error_response_by_message (Error m)) as (H408 & H404 & H500).
  cbn [message] in *.
  split; [intros H; rewrite (H408 H); reflexivity|]. split; assumption.
Qed.

Lemma X17_launch_error_status_witness :
  let m := "Browser was not found at the configured executablePath (/tmp/chromium)"%string in
  let s := {| launch_error := Some m;
              goto_error := None; wait_problems_error := None;
              wait_streak_error := None; wait_xp_error := None;
              document := Sample.codushan |} in
  EndpointSpec.responds
    (EndpointSpec.get (Sample.request 0 s) (Some "Codushan"%string) Sample.empty_world)
    (error_response (Error m)) /\
  error_response (Error m)
  = {| status := 404;
       body := JObject [("error", JString "Code360 profile not found")]%string |}.
Proof.
  intros m s.
  destruct (X17_launch_error_status (Sample.request 0 s) "Codushan" m
              Sample.empty_world) as (Hr & _ & _ & H404 & _).
  - discriminate.
  - reflexivity.
  - reflexivity.
  - split; [exact Hr|]. apply H404.
    + intros H. apply includes_spec in H. discriminate H.
    + apply includes_spec. reflexivity.
Defined.

(** X18. The profile endpoint always answers, and with one of the
    statuses 200, 400, 404, 408, 500: no error escapes its handler. A
    request starts at most one fetch, and it starts one exactly when the
    username is not empty and the cache has no fresh entry for it. *)
Theorem X18_one_answer_one_fetch (rq : Request) (username : option string)
    (w : World) :
  let run := EndpointSpec.get rq username w in
  (exists r, EndpointSpec.responds run r /\ In (status r) [200; 400; 404; 408; 500]) /\
  (EndpointSpec.fetched w run \/ EndpointSpec.not_fetched w run) /\
  (EndpointSpec.fetched w run <->
   exists u, username = Some u /\ u <> EmptyString /\
             EndpointSpec.miss (now_lookup rq) u w).
Proof.
  cbv zeta.
  unfold EndpointSpec.get, EndpointSpec.responds, EndpointSpec.fetched,
    EndpointSpec.not_fetched, EndpointSpec.after, EndpointSpec.miss.
  destruct (string_falsy username) eqn:Ef.
  - rewrite get_missing_username by exact Ef. cbn [fst snd].
    split; [eexists; split; [reflexivity | simpl; auto]|].
    split; [right; reflexivity|].
    split; [lia|]. intros (u & -> & Hu & _).
    destruct u; [contradiction | discriminate].
  - destruct username as [u|]; [|discriminate]. simpl in Ef.
    assert (Hu : u <> EmptyString) by (intros ->; discriminate).
    destruct (fresh (now_lookup rq) (cache w !! cacheKey u)) as [entry|] eqn:Eh.
    + rewrite (get_hit rq u w entry Ef Eh). cbn [fst snd journal].
      rewrite fetches_app.
      change (fetches [CacheGet _; Console _ _]) with 0%nat.
      split; [eexists; split; [reflexivity | simpl; auto]|].
      split; [right; lia|].
      split; [lia|]. intros (u' & Hu' & _ & Hm).
      injection Hu' as Hu'. subst u'.
      assert (Hc : Some entry = None) by (rewrite <- Eh; exact Hm).
      discriminate Hc.
    + pose proof (get_miss_fetched rq u w Hu Eh) as Hf.
      unfold EndpointSpec.fetched, EndpointSpec.after, EndpointSpec.get in Hf.
      split; [|split; [left; exact Hf | split; [eauto | intros _; exact Hf]]].
      rewrite (get_miss rq u w Ef Eh).
      destruct (Scr.result _) as [stats|e]; cbn [fst].
      * eexists; split; [reflexivity | simpl; auto].
      * eexists; split; [reflexivity|].
        pose proof (error_response_statuses e) as Hs. simpl in *. tauto.
Qed.

Lemma X18_one_answer_one_fetch_witness :
  let rq := Sample.request 0 (Sample.session Sample.codushan) in
  EndpointSpec.fetched Sample.empty_world
    (EndpointSpec.get rq (Some "Codushan"%string) Sample.empty_world).
Proof.
  intros rq.
  apply (X18_one_answer_one_fetch rq (Some "Codushan"%string) Sample.empty_world).
  exists "Codushan"%string. split; [reflexivity|]. split; [discriminate | reflexivity].
Defined.
